(** * NeoGit: project inference and template README generation

    A shallow embedding of the decision logic of the NeoGit sources

      - [neogit/utils/file_utils.py]      (file classifier),
      - [neogit/ai/project_analyzer.py]   (scanner and inference engine),
      - [neogit/ai/readme_generator.py]   (document generator),

    followed by the properties established about it.

    Modelling conventions.  A Python [str] is a [string]: a sequence of
    8-bit characters (the UTF-8 bytes of the text).  Case conversion and
    white space are those of ASCII.  On letters outside ASCII Python
    converts more: lower-casing turns KELVIN SIGN and LATIN CAPITAL LETTER I
    WITH DOT ABOVE into ASCII letters, title-casing writes the sharp s as
    [Ss].  Text with such letters and the non-ASCII white space are outside
    the model, except where the conversions are parameters
    ([_generate_description_with]).  Paths are POSIX paths.  A [bytes]
    object is a [list byte].  The counting dictionary of language detection
    is a [gmap string nat], the de-duplicating [set] of dependency
    extraction a [gset string].  The file system, the manifest reader, the
    JSON decoder, the text-generation services and the console are explicit
    inputs of the functions that consult them. *)

From Stdlib Require Import ZArith NArith Ascii Bool List Lia.
From Stdlib.Strings Require Import Byte.
From stdpp Require Import base gmap strings list.

Local Open Scope Z_scope.

(** ** Python string primitives *)

Module PyStr.

Definition len (s : string) : nat := String.length s.

(** [c] lies in the closed character range [lo .. hi]. *)
Definition in_range (lo hi c : ascii) : bool :=
  (N.leb (N_of_ascii lo) (N_of_ascii c) && N.leb (N_of_ascii c) (N_of_ascii hi))%bool.

Definition is_upper (c : ascii) : bool := in_range "A" "Z" c.
Definition is_lower (c : ascii) : bool := in_range "a" "z" c.
Definition is_alpha (c : ascii) : bool := (is_upper c || is_lower c)%bool.

Definition lower_char (c : ascii) : ascii :=
  if is_upper c then ascii_of_N (N_of_ascii c + 32) else c.

Definition upper_char (c : ascii) : ascii :=
  if is_lower c then ascii_of_N (N_of_ascii c - 32) else c.

(** [s.lower()] *)
Fixpoint lower (s : string) : string :=
  match s with
  | EmptyString => EmptyString
  | String c r => String (lower_char c) (lower r)
  end.

(** [s.title()]: a cased character is upper-cased after an uncased one
    and lower-cased after a cased one. *)
Fixpoint title_from (prev_cased : bool) (s : string) : string :=
  match s with
  | EmptyString => EmptyString
  | String c r =>
      String (if prev_cased then lower_char c else upper_char c)
             (title_from (is_alpha c) r)
  end.

Definition title (s : string) : string := title_from false s.

(** [s.startswith(p)] *)
Fixpoint startswith (s p : string) : bool :=
  match p, s with
  | EmptyString, _ => true
  | String _ _, EmptyString => false
  | String a p', String b s' => if Ascii.eqb a b then startswith s' p' else false
  end.

(** [p in s] for strings: [p] occurs in [s] as a contiguous substring. *)
Fixpoint contains (p s : string) : bool :=
  if startswith s p then true
  else match s with
       | EmptyString => false
       | String _ r => contains p r
       end.

(** [s.endswith(p)] *)
Fixpoint endswith (s p : string) : bool :=
  if String.eqb s p then true
  else match s with
       | EmptyString => false
       | String _ r => endswith r p
       end.

(** [s.split(sep)[0]] for a non-empty separator: the part of [s] before the
    first occurrence of [sep], all of [s] when there is none. *)
Fixpoint split_head (sep s : string) : string :=
  if startswith s sep then EmptyString
  else match s with
       | EmptyString => EmptyString
       | String c r => String c (split_head sep r)
       end.

(** [s.replace(a, t)] for a one-character pattern [a]. *)
Fixpoint replace_char (a : ascii) (t : string) (s : string) : string :=
  match s with
  | EmptyString => EmptyString
  | String c r =>
      if Ascii.eqb c a then t +:+ replace_char a t r
      else String c (replace_char a t r)
  end.

(** The characters [str.strip()] removes: tab, line feed, vertical tab,
    form feed, carriage return, the separators 0x1c-0x1f and the space. *)
Definition is_space (c : ascii) : bool :=
  let n := N_of_ascii c in
  ((N.leb 9 n && N.leb n 13) || (N.leb 28 n && N.leb n 32))%bool.

Fixpoint lstrip (s : string) : string :=
  match s with
  | EmptyString => EmptyString
  | String c r => if is_space c then lstrip r else s
  end.

Fixpoint rstrip (s : string) : string :=
  match s with
  | EmptyString => EmptyString
  | String c r =>
      match rstrip r with
      | EmptyString => if is_space c then EmptyString else String c EmptyString
      | r' => String c r'
      end
  end.

(** [s.strip()] *)
Definition strip (s : string) : string := rstrip (lstrip s).

(** [sep.join(parts)] *)
Fixpoint join (sep : string) (parts : list string) : string :=
  match parts with
  | [] => EmptyString
  | [p] => p
  | p :: rest => p +:+ sep +:+ join sep rest
  end.

(** [s.split(c)] for a one-character separator [c]. *)
Fixpoint split_char (c : ascii) (s : string) : list string :=
  match s with
  | EmptyString => [EmptyString]
  | String a r =>
      if Ascii.eqb a c then EmptyString :: split_char c r
      else match split_char c r with
           | [] => [String a EmptyString]
           | w :: ws => String a w :: ws
           end
  end.

(** The part of [s] from the last occurrence of the character [c] on
    ([s[s.rfind(c):]]), with the index of that occurrence; [None] when [c]
    does not occur. *)
Fixpoint rfind_from (c : ascii) (s : string) : option (nat * string) :=
  match s with
  | EmptyString => None
  | String a r =>
      match rfind_from c r with
      | Some (i, t) => Some (S i, t)
      | None => if Ascii.eqb a c then Some (O, s) else None
      end
  end.

(** Truth value of a string: the empty string is false. *)
Definition truthy (s : string) : bool :=
  match s with EmptyString => false | _ => true end.

End PyStr.


(** ** Python values, exceptions and results *)

(** The exceptions the modelled code can meet.  [FileNotFoundError],
    [NotADirectoryError] and [PermissionError] are subclasses of [OSError],
    of which [IOError] is an alias.  [ServiceError] stands for the errors of
    the provider libraries and of the network, [MarkupError] for the error
    with which the console refuses a text. *)
Inductive exn : Type :=
| FileNotFoundError
| NotADirectoryError
| PermissionError
| TypeError
| AttributeError
| KeyError
| IndexError
| ServiceError
| MarkupError.

Definition is_IOError (e : exn) : bool :=
  match e with
  | FileNotFoundError | NotADirectoryError | PermissionError => true
  | _ => false
  end.

(** The outcome of a call that may raise. *)
Inductive result (A : Type) : Type :=
| Ok (a : A)
| Raise (e : exn).

Arguments Ok {A} a.
Arguments Raise {A} e.

(** A dynamically typed value, as decoded from JSON or handed back by a
    client library.  A float is carried as its IEEE-754 bit pattern and is
    never computed with. *)
#[warnings="-register-all"]
Inductive pyvalue : Type :=
| PyNone
| PyBool (b : bool)
| PyInt (z : Z)
| PyFloat (bits : Z)
| PyStr (s : string)
| PyList (items : list pyvalue)
| PyDict (bindings : list (string * pyvalue)).

(** [d.get(k)] on the bindings of a dict. *)
Fixpoint dict_lookup (k : string) (kvs : list (string * pyvalue)) : option pyvalue :=
  match kvs with
  | [] => None
  | (k', v) :: rest => if String.eqb k' k then Some v else dict_lookup k rest
  end.

(** [d.keys()]: each key once, in insertion order. *)
Fixpoint dict_keys (kvs : list (string * pyvalue)) : list string :=
  match kvs with
  | [] => []
  | (k, _) :: rest => k :: List.filter (fun k' => negb (String.eqb k' k)) (dict_keys rest)
  end.

(** [v == s] for a string [s]. *)
Definition is_str (s : string) (v : pyvalue) : bool :=
  match v with
  | PyStr t => String.eqb t s
  | _ => false
  end.

(** [s in v] for a string [s]: key membership on a dict, element membership
    on a list, substring test on a string, [TypeError] on anything else. *)
Definition py_in (s : string) (v : pyvalue) : result bool :=
  match v with
  | PyDict kvs => Ok (match dict_lookup s kvs with Some _ => true | None => false end)
  | PyList l => Ok (existsb (is_str s) l)
  | PyStr t => Ok (PyStr.contains s t)
  | _ => Raise TypeError
  end.

(** [v[s]] for a string subscript [s]. *)
Definition py_getitem (v : pyvalue) (s : string) : result pyvalue :=
  match v with
  | PyDict kvs => match dict_lookup s kvs with Some x => Ok x | None => Raise KeyError end
  | _ => Raise TypeError
  end.

(** [v.keys()] *)
Definition py_keys (v : pyvalue) : result (list string) :=
  match v with
  | PyDict kvs => Ok (dict_keys kvs)
  | _ => Raise AttributeError
  end.

(** [v.get(s, dflt)] *)
Definition py_get (v : pyvalue) (s : string) (dflt : pyvalue) : result pyvalue :=
  match v with
  | PyDict kvs => Ok (match dict_lookup s kvs with Some x => x | None => dflt end)
  | _ => Raise AttributeError
  end.

(** [list(v)]: the items an iteration over [v] delivers. *)
Definition py_iter (v : pyvalue) : result (list pyvalue) :=
  match v with
  | PyList l => Ok l
  | PyDict kvs => Ok (map PyStr (dict_keys kvs))
  | PyStr s => Ok (map (fun c => PyStr (String c EmptyString)) (String.list_ascii_of_string s))
  | _ => Raise TypeError
  end.

(** ** File classifier: [neogit/utils/file_utils.py] *)

Definition EXCLUDE_PATTERNS : list string :=
  [".git"; "node_modules"; "__pycache__"; "venv"; ".DS_Store"; ".mypy_cache"].

Definition MAX_FILE_SIZE : Z := 5 * 1024 * 1024.

(** [range(lo, hi)] as a set of integers. *)
Definition range_set (lo hi : N) : gset N :=
  list_to_set (map (fun i => (lo + N.of_nat i)%N) (seq 0 (N.to_nat (hi - lo)))).

(** [{7,8,9,10,12,13,27} | set(range(0x20, 0x100)) - {0x7f}]: the difference
    binds tighter than the union. *)
Definition textchars_set : gset N :=
  list_to_set [7; 8; 9; 10; 12; 13; 27]%N ∪ (range_set 0x20 0x100 ∖ {[ 0x7f%N ]}).

(** [bytearray(ints)], for integers in [range(256)]. *)
Definition bytearray (ints : gset N) : list byte :=
  omap Byte.of_N (elements ints).

Definition textchars : list byte := bytearray textchars_set.

Definition byte_in (b : byte) (bs : list byte) : bool :=
  existsb (Byte.eqb b) bs.

(** [content.translate(None, delete)]: [content] without the bytes that
    occur in [delete]. *)
Definition translate_delete (content delete : list byte) : list byte :=
  List.filter (fun b => negb (byte_in b delete)) content.

(** [is_binary(content)]: something is left once the text characters are
    removed. *)
Definition is_binary (content : list byte) : bool :=
  match translate_delete content textchars with
  | [] => false
  | _ :: _ => true
  end.

(** [should_exclude(file_path)]: some exclusion pattern occurs in the path as
    a substring. *)
Definition should_exclude (file_path : string) : bool :=
  existsb (fun pattern => PyStr.contains pattern file_path) EXCLUDE_PATTERNS.

(** [is_large(file_path)], over the size [os.path.getsize] reports. *)
Definition is_large (getsize : string -> Z) (file_path : string) : bool :=
  MAX_FILE_SIZE <? getsize file_path.

(** The exclusion rule as the upload walk of [neogit/github/manager.py]
    applies it, to one directory or file name: the name is an exclusion
    pattern or starts with a dot. *)
Definition name_excluded (name : string) : bool :=
  (existsb (String.eqb name) EXCLUDE_PATTERNS || PyStr.startswith name ".")%bool.

(** ** Paths: [pathlib.PurePosixPath] *)

(** The components of a path: empty components and single dots are dropped
    when the path is parsed. *)
Definition path_parts (p : string) : list string :=
  List.filter (fun c => negb (String.eqb c "" || String.eqb c ".")%bool)
              (PyStr.split_char "/" p).

(** [Path(p).name]: the final component, empty when there is none. *)
Definition path_name (p : string) : string := List.last (path_parts p) "".

(** [Path(p).suffix]: with [i = name.rfind('.')], the text [name[i:]] when
    [0 < i < len(name) - 1], the empty string otherwise. *)
Definition path_suffix (p : string) : string :=
  let name := path_name p in
  match PyStr.rfind_from "." name with
  | Some (i, ext) =>
      if (0 <? Z.of_nat i) && (Z.of_nat i <? Z.of_nat (PyStr.len name) - 1)
      then ext else ""
  | None => ""
  end.

(** ** The project directory and the files read from it *)

(** A directory entry.  A directory carries its listing, or [None] when it
    cannot be listed.  Symbolic links and special files are not modelled. *)
#[warnings="-register-all"]
Inductive entry : Type :=
| File (name : string)
| Dir (name : string) (listing : option (list entry)).

(** What the project path points to. *)
Inductive path_state : Type :=
| Absent
| RegularFile
| Directory (listing : option (list entry)).

(** Reading a text file line by line: the lines delivered up to the end of
    the file, or up to the first error ([open] failing delivers none). *)
Inductive file_read : Type :=
| ReadAll (lines : list string)
| ReadFailed (lines_before : list string).

Definition delivered (r : file_read) : list string :=
  match r with
  | ReadAll ls => ls
  | ReadFailed ls => ls
  end.

(** The environment of an analysis run: the project path, what it points
    to, the content of the files below it (by relative path), and what
    [json.load] makes of them. *)
Record World : Type := {
  project_path : string;
  root : path_state;
  read_lines : string -> file_read;
  json_load : string -> result pyvalue
}.

Record Structure : Type := {
  src_dirs : list string;
  config_files : list string;
  build_files : list string;
  test_dirs : list string
}.

Record ProjectInfo : Type := {
  name : string;
  description : string;
  language : string;
  framework : option string;
  dependencies : list string;
  files : list string;
  structure : Structure;
  has_tests : bool;
  has_docs : bool;
  has_license : bool;
  has_requirements : bool
}.

(** ** Project scanner and inference engine:
    [neogit/ai/project_analyzer.py] *)

Definition entry_name (e : entry) : string :=
  match e with
  | File n => n
  | Dir n _ => n
  end.

Definition is_dir (e : entry) : bool :=
  match e with
  | Dir _ _ => true
  | File _ => false
  end.

Definition is_file (e : entry) : bool := negb (is_dir e).

(** [os.path.join] of a walk-relative directory and a name. *)
Definition rel_join (top name : string) : string :=
  if PyStr.truthy top then top +:+ "/" +:+ name else name.

(** The test of line 46 on a directory name. *)
Definition keep_dir (d : string) : bool :=
  (negb (PyStr.startswith d ".") &&
   negb (existsb (String.eqb d) ["node_modules"; "__pycache__"; "venv"; ".git"]))%bool.

(** The test of line 48 on a file name. *)
Definition keep_file (filename : string) : bool :=
  (negb (PyStr.startswith filename ".") &&
   negb (existsb (PyStr.endswith filename) [".pyc"; ".log"; ".tmp"]))%bool.

(** [os.walk] below one directory (top-down, errors ignored, the caller
    pruning the directory list in place with [keep_dir]): the visited
    directories, each with the names of its non-directories.  [top] is the
    path of the directory relative to the project path.  A directory that
    cannot be listed is not visited. *)
Fixpoint walk_dir (top : string) (e : entry) : list (string * list string) :=
  match e with
  | File _ => []
  | Dir _ None => []
  | Dir _ (Some es) =>
      (top, map entry_name (List.filter is_file es))
        :: flat_map (fun c =>
                       match c with
                       | Dir d _ => if keep_dir d then walk_dir (rel_join top d) c else []
                       | File _ => []
                       end) es
  end.

(** [os.walk(self.project_path)]: nothing is visited when the path is absent
    or is not a directory, the error of the listing being ignored. *)
Definition os_walk (w : World) : list (string * list string) :=
  match root w with
  | Directory listing => walk_dir "" (Dir (path_name (project_path w)) listing)
  | Absent | RegularFile => []
  end.

Definition _get_project_files (w : World) : result (list string) :=
  Ok (flat_map (fun '(top, filenames) =>
                  map (rel_join top) (List.filter keep_file filenames))
               (os_walk w)).

(** The dictionary [extensions] after the loop of lines 55-58. *)
Definition count_extensions (files : list string) : gmap string nat :=
  foldl (fun (extensions : gmap string nat) file =>
           let ext := PyStr.lower (path_suffix file) in
           if PyStr.truthy ext
           then <[ ext := (default 0 (extensions !! ext) + 1)%nat ]> extensions
           else extensions)
        ∅ files.

(** [k in extensions] *)
Definition has_key (k : string) (extensions : gmap string nat) : bool :=
  bool_decide (is_Some (extensions !! k)).

Definition _detect_language (files : list string) : string :=
  let extensions := count_extensions files in
  if has_key ".py" extensions then "Python"
  else if (has_key ".js" extensions || has_key ".ts" extensions)%bool then "JavaScript/TypeScript"
  else if has_key ".java" extensions then "Java"
  else if (has_key ".cpp" extensions || has_key ".c" extensions)%bool then "C/C++"
  else if has_key ".go" extensions then "Go"
  else if has_key ".rs" extensions then "Rust"
  else if has_key ".rb" extensions then "Ruby"
  else if has_key ".php" extensions then "PHP"
  else "Unknown".

(** [any(kw in f.lower() for f in files)] *)
Definition any_lower_contains (kw : string) (files : list string) : bool :=
  existsb (fun f => PyStr.contains kw (PyStr.lower f)) files.

(** [any(kw in f for f in files)] *)
Definition any_contains (kw : string) (files : list string) : bool :=
  existsb (fun f => PyStr.contains kw f) files.

Definition _detect_framework (files : list string) (language : string) : option string :=
  if String.eqb language "Python" then
    if any_lower_contains "django" files then Some "Django"
    else if any_lower_contains "flask" files then Some "Flask"
    else if any_lower_contains "fastapi" files then Some "FastAPI"
    else if any_contains "requirements.txt" files then Some "Python"
    else None
  else if String.eqb language "JavaScript/TypeScript" then
    if any_contains "package.json" files then Some "Node.js"
    else if any_lower_contains "react" files then Some "React"
    else if any_lower_contains "vue" files then Some "Vue.js"
    else if any_lower_contains "angular" files then Some "Angular"
    else None
  else None.

(** [f] is read as a requirements file (lines 102 and 162). *)
Definition is_req_file (f : string) : bool :=
  (PyStr.contains "requirements" (PyStr.lower f) || PyStr.endswith f ".txt")%bool.

(** The entries one line of a requirements file contributes (lines
    107-109). *)
Definition requirement_of_line (raw : string) : list string :=
  let line := PyStr.strip raw in
  if (PyStr.truthy line && negb (PyStr.startswith line "#"))%bool
  then [PyStr.split_head "<=" (PyStr.split_head ">=" (PyStr.split_head "==" line))]
  else [].

(** Statements that extend the list [dependencies] and may raise; what was
    appended before an exception stays appended. *)
Definition Exec (A : Type) : Type := list string -> result A * list string.

#[global] Instance Exec_ret : MRet Exec :=
  fun A (a : A) deps => (Ok a, deps).

#[global] Instance Exec_bind : MBind Exec :=
  fun A B (k : A -> Exec B) (m : Exec A) deps =>
    match m deps with
    | (Ok a, deps') => k a deps'
    | (Raise e, deps') => (Raise e, deps')
    end.

Definition lift {A} (r : result A) : Exec A := fun deps => (r, deps).

(** [dependencies.extend(xs)] *)
Definition extend (xs : list string) : Exec unit := fun deps => (Ok tt, deps ++ xs).

(** [try: body except: pass] *)
Definition try_pass (body : Exec unit) : Exec unit :=
  fun deps => (Ok tt, snd (body deps)).

(** The body of the [try] of lines 116-121 on the decoded manifest. *)
Definition extend_from_section (data : pyvalue) (section : string) : Exec unit :=
  present ← lift (py_in section data);
  if present : bool then
    table ← lift (py_getitem data section);
    keys ← lift (py_keys table);
    extend keys
  else mret tt.

Definition read_package_json (w : World) : Exec unit :=
  data ← lift (json_load w "package.json");
  extend_from_section data "dependencies";;
  extend_from_section data "devDependencies".

(** The loop of lines 103-111 over the requirements files. *)
Fixpoint read_requirements (w : World) (req_files : list string) : Exec unit :=
  match req_files with
  | [] => mret tt
  | req_file :: rest =>
      try_pass (extend (flat_map requirement_of_line (delivered (read_lines w req_file))));;
      read_requirements w rest
  end.

(** [list(set(xs))]: the elements of the set in the order the set
    enumerates them. *)
Definition list_of_set (xs : list string) : list string :=
  elements (list_to_set xs : gset string).

Definition _extract_dependencies (w : World) (files : list string) (language : string)
  : list string :=
  let body : Exec unit :=
    if String.eqb language "Python" then
      read_requirements w (List.filter is_req_file files)
    else if String.eqb language "JavaScript/TypeScript" then
      if existsb (String.eqb "package.json") files
      then try_pass (read_package_json w)
      else mret tt
    else mret tt in
  take 10 (list_of_set (snd (body []))).

(** [_generate_description] over the two built-ins it calls, [str.title]
    and [str.lower]. *)
Definition _generate_description_with (str_title str_lower : string -> string)
                                      (w : World) : string :=
  let name := path_name (project_path w) in
  let description := str_title (PyStr.replace_char "_" " " (PyStr.replace_char "-" " " name)) in
  "A " +:+ str_lower description +:+ " project".

(** [_generate_description] with the case conversion of ASCII, which is
    that of Python on a directory name made of ASCII characters.  On other
    names the conversions of Python go further (the title-casing of the
    sharp s is [Ss], that of the ligature fi is [Fi]) and the description
    they give is not the one computed here. *)
Definition _generate_description (w : World) : string :=
  _generate_description_with PyStr.title PyStr.lower w.

(** [any(ext in name.lower() for ext in exts)] *)
Definition any_marker (exts : list string) (name : string) : bool :=
  existsb (fun ext => PyStr.contains ext (PyStr.lower name)) exts.

(** One iteration of the loop of lines 138-148. *)
Definition classify_item (structure : Structure) (item : entry) : Structure :=
  let n := entry_name item in
  if is_dir item then
    if existsb (String.eqb n) ["src"; "app"; "lib"; "source"] then
      {| src_dirs := src_dirs structure ++ [n];
         config_files := config_files structure;
         build_files := build_files structure;
         test_dirs := test_dirs structure |}
    else if PyStr.contains "test" (PyStr.lower n) then
      {| src_dirs := src_dirs structure;
         config_files := config_files structure;
         build_files := build_files structure;
         test_dirs := test_dirs structure ++ [n] |}
    else structure
  else if is_file item then
    if any_marker [".json"; ".yaml"; ".yml"; ".toml"; ".ini"] n then
      {| src_dirs := src_dirs structure;
         config_files := config_files structure ++ [n];
         build_files := build_files structure;
         test_dirs := test_dirs structure |}
    else if any_marker [".lock"; ".spec"; "build"] n then
      {| src_dirs := src_dirs structure;
         config_files := config_files structure;
         build_files := build_files structure ++ [n];
         test_dirs := test_dirs structure |}
    else structure
  else structure.

Definition empty_structure : Structure :=
  {| src_dirs := []; config_files := []; build_files := []; test_dirs := [] |}.

(** [self.project_path.iterdir()] *)
Definition iterdir (w : World) : result (list entry) :=
  match root w with
  | Absent => Raise FileNotFoundError
  | RegularFile => Raise NotADirectoryError
  | Directory None => Raise PermissionError
  | Directory (Some es) => Ok es
  end.

(** The loop of lines 138-148 over the listing.  Every child of a listed
    directory is taken to answer [is_dir()] and [is_file()]: a directory
    that can be listed but not searched, in which examining a child raises
    [PermissionError], is not among the modelled directories. *)
Definition _analyze_structure (w : World) : result Structure :=
  match iterdir w with
  | Raise e => Raise e
  | Ok items => Ok (foldl classify_item empty_structure items)
  end.

Definition _has_tests (files : list string) : bool :=
  existsb (fun f => (PyStr.contains "test" (PyStr.lower f)
                     || PyStr.contains "spec" (PyStr.lower f))%bool) files.

Definition _has_docs (files : list string) : bool :=
  existsb (fun f => (PyStr.contains "readme" (PyStr.lower f)
                     || PyStr.contains "docs" (PyStr.lower f))%bool) files.

Definition _has_license (files : list string) : bool :=
  existsb (fun f => PyStr.contains "license" (PyStr.lower f)) files.

Definition _has_requirements (files : list string) (language : string) : bool :=
  if String.eqb language "Python" then existsb is_req_file files
  else if String.eqb language "JavaScript/TypeScript"
       then existsb (String.eqb "package.json") files
  else false.

(** [analyze]: the arguments of the [ProjectInfo] constructor are evaluated
    in the order written, the structure after the file list and the
    dependencies. *)
Definition analyze (w : World) : result ProjectInfo :=
  match _get_project_files w with
  | Raise e => Raise e
  | Ok files =>
      let language := _detect_language files in
      let framework := _detect_framework files language in
      let dependencies := _extract_dependencies w files language in
      let description := _generate_description w in
      match _analyze_structure w with
      | Raise e => Raise e
      | Ok structure =>
          Ok {| name := path_name (project_path w);
                description := description;
                language := language;
                framework := framework;
                dependencies := dependencies;
                files := files;
                structure := structure;
                has_tests := _has_tests files;
                has_docs := _has_docs files;
                has_license := _has_license files;
                has_requirements := _has_requirements files language |}
      end
  end.

(** ** Document generator: [neogit/ai/readme_generator.py] *)

(** [chr(10)] *)
Definition nl : string := String "010" EmptyString.

Definition _get_install_command (project_info : ProjectInfo) : string :=
  if String.eqb (language project_info) "Python" then "pip install -r requirements.txt"
  else if String.eqb (language project_info) "JavaScript/TypeScript" then "npm install"
  else "# Install dependencies based on your project type".

Definition _get_run_command (project_info : ProjectInfo) : string :=
  if String.eqb (language project_info) "Python" then "python main.py"
  else if String.eqb (language project_info) "JavaScript/TypeScript" then "npm start"
  else "# Run the application based on your project type".

Definition _get_configuration_section (project_info : ProjectInfo) : string :=
  match config_files (structure project_info) with
  | _ :: _ =>
  "
The project uses the following configuration files:
" +:+
  PyStr.join nl (map (fun file => "- `" +:+ file +:+ "`") (config_files (structure project_info))) +:+
  "

Edit these files to customize the application behavior.
"
  | [] =>
  "
Configuration can be done through environment variables or by editing the source code.
"
  end.

Definition _get_test_command (project_info : ProjectInfo) : string :=
  if String.eqb (language project_info) "Python" then "python -m pytest"
  else if String.eqb (language project_info) "JavaScript/TypeScript" then "npm test"
  else "# Run tests based on your project type".

Definition _get_verify_command (project_info : ProjectInfo) : string :=
  if has_tests project_info then _get_test_command project_info
  else _get_run_command project_info +:+ " --version".

Definition _get_dev_install_command (project_info : ProjectInfo) : string :=
  if String.eqb (language project_info) "Python" then "pip install -r requirements-dev.txt"
  else if String.eqb (language project_info) "JavaScript/TypeScript" then "npm install --include=dev"
  else _get_install_command project_info.

Definition _get_basic_usage (project_info : ProjectInfo) : string :=
  "
# Basic usage
" +:+
  _get_run_command project_info +:+
  "

# With options
" +:+
  _get_run_command project_info +:+
  " --help
".

Definition _get_api_reference (project_info : ProjectInfo) : string :=
  "
### Core Functions

- `main()`: Entry point of the application
- `config()`: Load configuration settings
- `run()`: Execute the main application logic

For detailed API documentation, please refer to the source code or generated documentation.
".

Definition _simple_template (project_info : ProjectInfo) : string :=
  "# " +:+
  name project_info +:+
  "

" +:+
  description project_info +:+
  "

## Installation

```bash
# Clone the repository
git clone <repository-url>
cd " +:+
  name project_info +:+
  "

# Install dependencies
" +:+
  _get_install_command project_info +:+
  "
```

## Usage

```bash
# Run the project
" +:+
  _get_run_command project_info +:+
  "
```

## License

This project is licensed under the MIT License.
".

Definition _installation_template (project_info : ProjectInfo) : string :=
  "# " +:+
  name project_info +:+
  "

" +:+
  description project_info +:+
  "

## Prerequisites

- " +:+
  language project_info +:+
  "
" +:+
  (match framework project_info with
   | Some fw => if PyStr.truthy fw then "- " +:+ fw else ""
   | None => ""
   end) +:+
  "

## Installation

### Step 1: Clone the Repository

```bash
git clone <repository-url>
cd " +:+
  name project_info +:+
  "
```

### Step 2: Install Dependencies

```bash
" +:+
  _get_install_command project_info +:+
  "
```

### Step 3: Configuration

" +:+
  _get_configuration_section project_info +:+
  "

### Step 4: Verify Installation

```bash
" +:+
  _get_verify_command project_info +:+
  "
```

## Troubleshooting

### Common Issues

1. **Dependency conflicts**: Try updating your package manager
2. **Permission errors**: Use `sudo` for system-wide installation
3. **Path issues**: Ensure the project is in your PATH

### Getting Help

If you encounter issues:
1. Check the [Issues](link-to-issues) page
2. Review the documentation
3. Contact the maintainers

## License

This project is licensed under the MIT License.
".

(** The table [lang_icons]; the icon texts are the bytes of the source
    file. *)
Definition lang_icons : gmap string string :=
  list_to_map
    [("Python", "üêç");
     ("JavaScript/TypeScript", "‚ö°Ô∏è");
     ("Java", "‚òï");
     ("C/C++", "üíª");
     ("Go", "ü¶¶");
     ("Rust", "ü¶Ä");
     ("Ruby", "üíé");
     ("PHP", "üêò");
     ("Unknown", "‚ùì")].

Definition _advanced_template (project_info : ProjectInfo) : string :=
  let lang_icon := default "‚ùì" (lang_icons !! language project_info) in
  let framework_part :=
    match framework project_info with
    | Some fw =>
        if (PyStr.truthy fw && negb (String.eqb fw (language project_info)))%bool
        then " | " +:+ fw else ""
    | None => ""
    end in
  let badges :=
  "
![License](https://img.shields.io/badge/license-MIT-green.svg)
![Language](https://img.shields.io/badge/language-" +:+
  PyStr.replace_char " " "%20" (language project_info) +:+
  "-blue.svg)
" in
  let tech_stack :=
    (lang_icon +:+ " " +:+ language project_info +:+ framework_part) +:+
    match dependencies project_info with
    | _ :: _ => " | " +:+ PyStr.join ", " (take 5 (dependencies project_info))
    | [] => ""
    end in
  "# " +:+
  name project_info +:+
  "

" +:+
  badges +:+
  "

" +:+
  description project_info +:+
  "

## üöÄ Table of Contents
- [Features](#features)
- [Getting Started](#getting-started)
- [Installation](#installation)
- [Usage](#usage)
- [Configuration](#configuration)
- [Tech Stack](#tech-stack)
- [Screenshots](#screenshots)
- [API Reference](#api-reference)
- [Contributing](#contributing)
- [Contact](#contact)
- [License](#license)

## ‚ú® Features
- **Modern " +:+
  language project_info +:+
  "**: Built with the latest " +:+
  language project_info +:+
  " features
" +:+
  (match framework project_info with
   | Some fw =>
       if PyStr.truthy fw
       then "- **" +:+ fw +:+ " Integration**: Leverages " +:+ fw +:+ " for enhanced functionality"
       else ""
   | None => ""
   end) +:+
  "
- **Comprehensive Testing**: " +:+
  (if has_tests project_info then "Includes unit and integration tests" else "Test coverage planned") +:+
  "
- **Documentation**: " +:+
  (if has_docs project_info then "Complete documentation included" else "Documentation in development") +:+
  "

## üèÅ Getting Started

Follow these steps to get your development environment set up:

1. **Clone the repository**
   ```bash
   git clone <repository-url>
   cd " +:+
  name project_info +:+
  "
   ```
2. **Install dependencies**
   ```bash
   " +:+
  _get_install_command project_info +:+
  "
   ```
3. **Run the application**
   ```bash
   " +:+
  _get_run_command project_info +:+
  "
   ```

## ‚öôÔ∏è Installation

### Requirements
- " +:+
  lang_icon +:+
  " " +:+
  language project_info +:+
  " 3.8+" +:+
  (match framework project_info with
   | Some fw => if PyStr.truthy fw then " | " +:+ fw else ""
   | None => ""
   end) +:+
  "

### Quick Start
```bash
# Clone the repository
git clone <repository-url>
cd " +:+
  name project_info +:+
  "

# Install dependencies
" +:+
  _get_install_command project_info +:+
  "

# Run the application
" +:+
  _get_run_command project_info +:+
  "
```

## üõ†Ô∏è Usage

### Basic Usage
```bash
" +:+
  _get_basic_usage project_info +:+
  "
```

### Advanced Configuration
" +:+
  _get_configuration_section project_info +:+
  "

## üß∞ Tech Stack
- " +:+
  tech_stack +:+
  "

## üì∏ Screenshots
Add screenshots here:
```
![Screenshot 1](link-to-screenshot-1)
![Screenshot 2](link-to-screenshot-2)
```

## üìö API Reference
" +:+
  _get_api_reference project_info +:+
  "

## ü§ù Contributing
We welcome contributions! Please see our [Contributing Guide](CONTRIBUTING.md) for details.

### Development Setup
```bash
# Clone the repository
git clone <repository-url>
cd " +:+
  name project_info +:+
  "

# Install development dependencies
" +:+
  _get_dev_install_command project_info +:+
  "

# Run tests
" +:+
  _get_test_command project_info +:+
  "
```

## üì¨ Contact
For questions, suggestions, or support, please open an issue or contact the maintainers.

## üìù License
This project is licensed under the MIT License - see the [LICENSE](LICENSE) file for details.
".

Definition _generate_template_readme (project_info : ProjectInfo) (readme_type : string)
  : string :=
  if String.eqb readme_type "simple" then _simple_template project_info
  else if String.eqb readme_type "installation" then _installation_template project_info
  else _advanced_template project_info.

Definition SYSTEM_PROMPT : string :=
  "You are an expert technical writer and open source documentation specialist. Your job is to create clear, comprehensive, and engaging README.md files for software projects. You follow best practices for open source documentation, ensuring the README is well-structured, easy to navigate, and provides all essential information for users and contributors. You highlight the project's unique features, architecture, setup instructions, usage examples, contribution guidelines, and licensing. Always use professional Markdown formatting, include badges if relevant, and tailor the content to the project's language and framework. If the project is a library or API, include usage examples and API reference. If the project is an application, include screenshots or demo instructions if possible. Be concise but thorough, and make the README welcoming for both new users and contributors.".

Definition type_instructions_advanced : string :=
  "Write a comprehensive, professional README.md for this project. Include the following sections: project title, badges (if relevant), detailed description, key features, architecture overview (with diagram if possible), installation instructions, configuration, usage examples, API reference (if applicable), contribution guidelines, code of conduct, FAQ, and license. Use advanced Markdown formatting, tables, and code blocks where appropriate. Highlight what makes this project unique and provide links to documentation or related resources.".

Definition type_instructions : gmap string string :=
  list_to_map
    [("simple",
      "Write a concise README.md for this project. Include: project title, a short description, installation steps, basic usage example, and license section. Use clear Markdown formatting and bullet points where appropriate.");
     ("advanced", type_instructions_advanced);
     ("installation",
      "Write a README.md focused on installation and setup. Include: project title, description, prerequisites, detailed installation steps for different platforms (if relevant), configuration instructions, troubleshooting tips, and license. Use step-by-step instructions, code blocks, and highlight common pitfalls.")].

(** *** Text-generation services *)

(** A model listing and a completion call of a client library, as the
    generator sees them.  [models_list] is the outcome of listing the models
    and collecting their identifiers.  [complete system user] is the outcome
    of the completion request; its value holds one entry per returned
    alternative, each the outcome of reading the text out of it.  The
    Google client takes one prompt and returns one text. *)
Record ChatClient : Type := {
  models_list : result (list string);
  complete : string -> string -> result (list (result pyvalue))
}.

Record GoogleClient : Type := {
  list_models : result (list string);
  generate_content : string -> result (result pyvalue)
}.

(** An HTTP response: [json] is the outcome of [response.json()]. *)
Record Response : Type := {
  status_code : Z;
  json : result pyvalue;
  text : string
}.

(** A [requests.Session]: [get url headers] and [post url headers payload]. *)
Record Session : Type := {
  get : string -> list (string * string) -> result Response;
  post : string -> list (string * string) -> pyvalue -> result Response
}.

(** The generator once constructed.  [hf_api_key], [hf_model] and
    [ollama_endpoint] are set together with the client they belong to. *)
Record READMEGenerator : Type := {
  selected_provider : string;
  openai_client : option ChatClient;
  anthropic_client : option ChatClient;
  google_client : option GoogleClient;
  hf_client : option Session;
  ollama_client : option Session;
  hf_api_key : string;
  hf_model : string;
  ollama_endpoint : string
}.

#[global] Instance result_ret : MRet result := fun A (a : A) => Ok a.

#[global] Instance result_bind : MBind result :=
  fun A B (k : A -> result B) (m : result A) =>
    match m with
    | Ok a => k a
    | Raise e => Raise e
    end.

(** [xs[0]] *)
Definition first_item {A} (xs : list A) : result A :=
  match xs with
  | x :: _ => Ok x
  | [] => Raise IndexError
  end.

(** [[f(t) for t in xs]], stopping at the first exception. *)
Fixpoint collect {A B} (f : A -> result B) (xs : list A) : result (list B) :=
  match xs with
  | [] => Ok []
  | x :: rest => y ← f x; ys ← collect f rest; mret (y :: ys)
  end.

(** [0.7] and [0.95] as IEEE-754 doubles. *)
Definition float_0_7 : pyvalue := PyFloat 0x3FE6666666666666.
Definition float_0_95 : pyvalue := PyFloat 0x3FEE666666666666.

(** The text [SYSTEM_PROMPT], two newlines, [prompt] that the Google, Hugging
    Face and Ollama paths send. *)
Definition full_prompt_of (prompt : string) : string :=
  SYSTEM_PROMPT +:+ nl +:+ nl +:+ prompt.

(** [try: body except Exception as e: handler(e)] *)
Definition try_except {A} (body : result A) (handler : exn -> result A) : result A :=
  match body with
  | Ok a => Ok a
  | Raise e => handler e
  end.

Section Generator.

(** Python's built-in [str] on a value: the text an f-string puts for it. *)
Variable py_str : pyvalue -> string.

Definition _create_ai_prompt (project_info : ProjectInfo) (readme_type : string) : string :=
  "
Project Name: " +:+
  name project_info +:+
  "
Description: " +:+
  description project_info +:+
  "
Language: " +:+
  language project_info +:+
  "
Framework: " +:+
  (match framework project_info with
   | Some fw => if PyStr.truthy fw then fw else "None"
   | None => "None"
   end) +:+
  "
Dependencies: " +:+
  PyStr.join ", " (take 5 (dependencies project_info)) +:+
  "
Has Tests: " +:+
  py_str (PyBool (has_tests project_info)) +:+
  "
Has Documentation: " +:+
  py_str (PyBool (has_docs project_info)) +:+
  "
Has License: " +:+
  py_str (PyBool (has_license project_info)) +:+
  "

Project Structure:
- Source directories: " +:+
  py_str (PyList (map PyStr (src_dirs (structure project_info)))) +:+
  "
- Configuration files: " +:+
  py_str (PyList (map PyStr (config_files (structure project_info)))) +:+
  "
- Test directories: " +:+
  py_str (PyList (map PyStr (test_dirs (structure project_info)))) +:+
  "

Key Files: " +:+
  py_str (PyList (map PyStr (take 10 (files project_info)))) +:+
  "

Requirements:
" +:+
  default (type_instructions_advanced) (type_instructions !! readme_type) +:+
  "
".

(** The console.  [console_print text] is the outcome of
    [console.print(text)]: the text is parsed as markup and may be refused
    with an exception.  [exception_text e] is [str(e)], the text an f-string
    puts for the exception [e]. *)
Variable exception_text : exn -> string.
Variable console_print : string -> result unit.

(** Consecutive [console.print] calls. *)
Fixpoint print_all (texts : list string) : result unit :=
  match texts with
  | [] => Ok tt
  | message :: rest => console_print message;; print_all rest
  end.

(** The diagnostics of lines 71-73, 76-78 and 92-93. *)
Definition openai_model_missing : list string :=
  ["[red]OpenAI model 'gpt-3.5-turbo' is not accessible with your API key.[/red]";
   "[yellow]You can test your key with this command:";
   "[bold]curl https://api.openai.com/v1/models -H 'Authorization: Bearer <your_openai_api_key>'[/bold]"].

Definition openai_check_failed (e : exn) : list string :=
  ["[red]OpenAI API key/model check failed: " +:+ exception_text e +:+ "[/red]";
   "[yellow]You can test your key with this command:";
   "[bold]curl https://api.openai.com/v1/models -H 'Authorization: Bearer <your_openai_api_key>'[/bold]"].

Definition openai_fallback (e : exn) : list string :=
  ["[red]Error generating OpenAI README: " +:+ exception_text e +:+ "[/red]";
   "[yellow]Falling back to template-based generation.[/yellow]"].

Definition _generate_openai_readme (client : ChatClient)
    (project_info : ProjectInfo) (readme_type : string) : result pyvalue :=
  let template := PyStr (_generate_template_readme project_info readme_type) in
  try_except
    (early ← try_except
               (model_names ← models_list client;
                if negb (existsb (String.eqb "gpt-3.5-turbo") model_names)
                then print_all openai_model_missing;; mret (Some template)
                else mret None)
               (fun e => print_all (openai_check_failed e);; mret (Some template));
     match early with
     | Some document => mret document
     | None =>
         let prompt := _create_ai_prompt project_info readme_type in
         choices ← complete client SYSTEM_PROMPT prompt;
         content ← first_item choices;
         content
     end)
    (fun e => print_all (openai_fallback e);; mret template).

(** The diagnostics of lines 103-105, 108-110 and 124-125. *)
Definition anthropic_model_missing : list string :=
  ["[red]Anthropic model 'claude-3-haiku-20240307' is not accessible with your API key.[/red]";
   "[yellow]You can test your key with this command:";
   "[bold]curl https://api.anthropic.com/v1/models -H 'x-api-key: <your_anthropic_api_key>'[/bold]"].

Definition anthropic_check_failed (e : exn) : list string :=
  ["[red]Anthropic API key/model check failed: " +:+ exception_text e +:+ "[/red]";
   "[yellow]You can test your key with this command:";
   "[bold]curl https://api.anthropic.com/v1/models -H 'x-api-key: <your_anthropic_api_key>'[/bold]"].

Definition anthropic_fallback (e : exn) : list string :=
  ["[red]Error generating Anthropic README: " +:+ exception_text e +:+ "[/red]";
   "[yellow]Falling back to template-based generation.[/yellow]"].

Definition _generate_anthropic_readme (client : ChatClient)
    (project_info : ProjectInfo) (readme_type : string) : result pyvalue :=
  let template := PyStr (_generate_template_readme project_info readme_type) in
  try_except
    (early ← try_except
               (model_names ← models_list client;
                if negb (existsb (String.eqb "claude-3-haiku-20240307") model_names)
                then print_all anthropic_model_missing;; mret (Some template)
                else mret None)
               (fun e => print_all (anthropic_check_failed e);; mret (Some template));
     match early with
     | Some document => mret document
     | None =>
         let prompt := _create_ai_prompt project_info readme_type in
         blocks ← complete client SYSTEM_PROMPT prompt;
         block ← first_item blocks;
         block
     end)
    (fun e => print_all (anthropic_fallback e);; mret template).

(** The diagnostics of lines 135-137, 140-142 and 149-150. *)
Definition google_model_missing : list string :=
  ["[red]Google Gemini model 'gemini-pro' is not accessible with your API key.[/red]";
   "[yellow]You can test your key with this command:";
   "[bold]curl -H 'Authorization: Bearer <your_google_api_key>' 'https://generativelanguage.googleapis.com/v1beta/models?key=<your_google_api_key>'[/bold]"].

Definition google_check_failed (e : exn) : list string :=
  ["[red]Google Gemini API key/model check failed: " +:+ exception_text e +:+ "[/red]";
   "[yellow]You can test your key with this command:";
   "[bold]curl -H 'Authorization: Bearer <your_google_api_key>' 'https://generativelanguage.googleapis.com/v1beta/models?key=<your_google_api_key>'[/bold]"].

Definition google_fallback (e : exn) : list string :=
  ["[red]Error generating Google README: " +:+ exception_text e +:+ "[/red]";
   "[yellow]Falling back to template-based generation.[/yellow]"].

Definition _generate_google_readme (client : GoogleClient)
    (project_info : ProjectInfo) (readme_type : string) : result pyvalue :=
  let template := PyStr (_generate_template_readme project_info readme_type) in
  try_except
    (early ← try_except
               (model_names ← list_models client;
                if negb (existsb (String.eqb "models/gemini-pro") model_names)
                then print_all google_model_missing;; mret (Some template)
                else mret None)
               (fun e => print_all (google_check_failed e);; mret (Some template));
     match early with
     | Some document => mret document
     | None =>
         let prompt := _create_ai_prompt project_info readme_type in
         let full_prompt := full_prompt_of prompt in
         response ← generate_content client full_prompt;
         response
     end)
    (fun e => print_all (google_fallback e);; mret template).

(** The locals [api_url], [headers] and [payload] of the Hugging Face
    path. *)
Definition hf_api_url (self : READMEGenerator) : string :=
  "https://api-inference.huggingface.co/models/" +:+ hf_model self.

Definition hf_headers (self : READMEGenerator) : list (string * string) :=
  [("Authorization", "Bearer " +:+ hf_api_key self);
   ("Content-Type", "application/json")].

Definition hf_payload (full_prompt : string) : pyvalue :=
  PyDict [("inputs", PyStr full_prompt);
          ("parameters",
           PyDict [("max_new_tokens", PyInt 2000);
                   ("temperature", float_0_7);
                   ("do_sample", PyBool true);
                   ("top_p", float_0_95)])].

(** Lines 164-167: the decoded body of the check response when it can be
    decoded, its text otherwise, as an f-string puts it. *)
Definition hf_error_body (check_resp : Response) : string :=
  match json check_resp with
  | Ok body => py_str body
  | Raise _ => text check_resp
  end.

(** The diagnostics of lines 163-170, 193 and 196-197. *)
Definition hf_not_accessible (self : READMEGenerator) (check_resp : Response) : list string :=
  let error_body := hf_error_body check_resp in
  ["[red]Hugging Face model '" +:+ hf_model self +:+ "' is not accessible (status " +:+ py_str (PyInt (status_code check_resp)) +:+ "). Please check the model name and your API key.[/red]";
   "[yellow]Hugging Face API response:[/yellow] " +:+ error_body;
   "[yellow]You can test your model and key with this command:";
   "[bold]curl -H 'Authorization: Bearer <your_hf_api_key>' https://api-inference.huggingface.co/models/" +:+ hf_model self +:+ "[/bold]"].

Definition hf_api_error (response : Response) : list string :=
  ["[red]Hugging Face API error: " +:+ py_str (PyInt (status_code response)) +:+ "[/red]"].

Definition hf_fallback (e : exn) : list string :=
  ["[red]Error generating Hugging Face README: " +:+ exception_text e +:+ "[/red]";
   "[yellow]Falling back to template-based generation.[/yellow]"].

Definition _generate_huggingface_readme (self : READMEGenerator) (client : Session)
    (project_info : ProjectInfo) (readme_type : string) : result pyvalue :=
  let template := PyStr (_generate_template_readme project_info readme_type) in
  try_except
    (check_resp ← get client (hf_api_url self) (hf_headers self);
     if negb (status_code check_resp =? 200)
     then print_all (hf_not_accessible self check_resp);; mret template
     else
       let prompt := _create_ai_prompt project_info readme_type in
       let full_prompt := full_prompt_of prompt in
       response ← post client (hf_api_url self) (hf_headers self) (hf_payload full_prompt);
       if status_code response =? 200 then
         result ← json response;
         match result with
         | PyList (item :: _) => py_get item "generated_text" (PyStr "")
         | PyDict _ => py_get result "generated_text" (PyStr "")
         | _ => Ok (PyStr (py_str result))
         end
       else print_all (hf_api_error response);; mret template)
    (fun e => print_all (hf_fallback e);; mret template).

(** The locals of the Ollama path. *)
Definition ollama_tags_url (self : READMEGenerator) : string :=
  ollama_endpoint self +:+ "/api/tags".

Definition ollama_api_url (self : READMEGenerator) : string :=
  ollama_endpoint self +:+ "/api/generate".

Definition ollama_payload (full_prompt : string) : pyvalue :=
  PyDict [("model", PyStr "codellama:7b-instruct");
          ("prompt", PyStr full_prompt);
          ("stream", PyBool false);
          ("options",
           PyDict [("temperature", float_0_7);
                   ("top_p", float_0_95);
                   ("num_predict", PyInt 2000)])].

(** Lines 211-212: the names of the models a tags response lists. *)
Definition ollama_model_names (tags_resp : Response) : result (list pyvalue) :=
  body ← json tags_resp;
  tags ← py_get body "models" (PyList []);
  items ← py_iter tags;
  collect (fun t => py_getitem t "name") items.

(** The diagnostics of lines 206-209, 214-216, 219-221, 241 and 244-245. *)
Definition ollama_not_accessible (self : READMEGenerator) (tags_resp : Response)
  : list string :=
  ["[red]Ollama endpoint '" +:+ ollama_endpoint self +:+ "' is not accessible (status " +:+ py_str (PyInt (status_code tags_resp)) +:+ ").[/red]";
   "[yellow]Ollama API response:[/yellow] " +:+ text tags_resp;
   "[yellow]You can test your endpoint with this command:";
   "[bold]curl " +:+ ollama_endpoint self +:+ "/api/tags[/bold]"].

Definition ollama_model_missing (self : READMEGenerator) : list string :=
  ["[red]Ollama model 'codellama:7b-instruct' is not available at your endpoint.[/red]";
   "[yellow]You can test your endpoint with this command:";
   "[bold]curl " +:+ ollama_endpoint self +:+ "/api/tags[/bold]"].

Definition ollama_check_failed (self : READMEGenerator) (e : exn) : list string :=
  ["[red]Ollama endpoint/model check failed: " +:+ exception_text e +:+ "[/red]";
   "[yellow]You can test your endpoint with this command:";
   "[bold]curl " +:+ ollama_endpoint self +:+ "/api/tags[/bold]"].

Definition ollama_api_error (response : Response) : list string :=
  ["[red]Ollama API error: " +:+ py_str (PyInt (status_code response)) +:+ "[/red]"].

Definition ollama_fallback (e : exn) : list string :=
  ["[red]Error generating Ollama README: " +:+ exception_text e +:+ "[/red]";
   "[yellow]Falling back to template-based generation.[/yellow]"].

Definition _generate_ollama_readme (self : READMEGenerator) (client : Session)
    (project_info : ProjectInfo) (readme_type : string) : result pyvalue :=
  let template := PyStr (_generate_template_readme project_info readme_type) in
  try_except
    (early ← try_except
               (tags_resp ← get client (ollama_tags_url self) [];
                if negb (status_code tags_resp =? 200)
                then print_all (ollama_not_accessible self tags_resp);; mret (Some template)
                else
                  model_names ← ollama_model_names tags_resp;
                  if negb (existsb (is_str "codellama:7b-instruct") model_names)
                  then print_all (ollama_model_missing self);; mret (Some template)
                  else mret None)
               (fun e => print_all (ollama_check_failed self e);; mret (Some template));
     match early with
     | Some document => mret document
     | None =>
         let prompt := _create_ai_prompt project_info readme_type in
         let full_prompt := full_prompt_of prompt in
         response ← post client (ollama_api_url self) [] (ollama_payload full_prompt);
         if status_code response =? 200 then
           result ← json response;
           py_get result "response" (PyStr "")
         else print_all (ollama_api_error response);; mret template
     end)
    (fun e => print_all (ollama_fallback e);; mret template).

(** The client of a provider when that provider is the selected one:
    [prov == provider and client]. *)
Definition selected {C} (self : READMEGenerator) (provider : string)
                    (client : option C) : option C :=
  if String.eqb (selected_provider self) provider then client else None.

Definition generate_readme (self : READMEGenerator)
    (project_info : ProjectInfo) (readme_type : string) : result pyvalue :=
  match selected self "openai" (openai_client self) with
  | Some client => _generate_openai_readme client project_info readme_type
  | None =>
  match selected self "anthropic" (anthropic_client self) with
  | Some client => _generate_anthropic_readme client project_info readme_type
  | None =>
  match selected self "google" (google_client self) with
  | Some client => _generate_google_readme client project_info readme_type
  | None =>
  match selected self "huggingface" (hf_client self) with
  | Some client => _generate_huggingface_readme self client project_info readme_type
  | None =>
  match selected self "ollama" (ollama_client self) with
  | Some client => _generate_ollama_readme self client project_info readme_type
  | None => Ok (PyStr (_generate_template_readme project_info readme_type))
  end end end end end.

End Generator.

(** ** Repository name: [neogit/github/manager.py], [deploy_project] *)

(** [''.join(c for c in s if keep(c))] *)
Fixpoint filter_chars (keep : ascii -> bool) (s : string) : string :=
  match s with
  | EmptyString => EmptyString
  | String c r => if keep c then String c (filter_chars keep r) else filter_chars keep r
  end.

Section RepositoryName.

(** Python's [str.isalnum] on one character. *)
Variable isalnum : ascii -> bool.

(** Lines 24-25: the name of the repository a project is deployed to. *)
Definition repo_name_of (name : string) : string :=
  let repo_name := PyStr.replace_char "_" "-" (PyStr.replace_char " " "-" name) in
  filter_chars (fun c => (isalnum c || PyStr.contains (String c EmptyString) "-_")%bool)
               repo_name.

End RepositoryName.

(** ** The ignore file: [neogit/cli/main.py], [run] and [create_gitignore] *)

(** Line 145 of [run]. *)
Definition required_patterns : list string :=
  ["mcp_client.config"; ".env"; "*.secret"; ".venv"; "node_modules"].

(** Line 245 of [create_gitignore]. *)
Definition always_patterns : list string :=
  [".env"; "*.secret"; ".venv"; "node_modules"].

(** Lines 146-155 of [run], over the content of the ignore file, [None] when
    there is no such file. *)
Definition needs_update (gitignore : option string) : bool :=
  match gitignore with
  | None => true
  | Some content =>
      existsb (fun pattern => negb (PyStr.contains pattern content)) required_patterns
  end.

(** [if pattern not in content: content += f"\n{pattern}"] *)
Definition append_missing (content pattern : string) : string :=
  if PyStr.contains pattern content then content else content +:+ nl +:+ pattern.

(** Lines 173-179 of [run] and 240-249 of [create_gitignore]: the content
    written to the ignore file, from the text [text] the template service
    answered with status 200.  [patterns] is [required_patterns[1:]] in
    [run] and [always_patterns] in [create_gitignore]. *)
Definition gitignore_content_with (patterns : list string) (text : string) : string :=
  let content := PyStr.rstrip text in
  let content :=
    if PyStr.contains "mcp_client.config" content then content
    else content +:+ nl +:+ "# NeoGit config file" +:+ nl +:+ "mcp_client.config" in
  let content := foldl append_missing content patterns in
  content +:+ nl.

Definition run_gitignore_content (text : string) : string :=
  gitignore_content_with (List.tl required_patterns) text.

Definition create_gitignore_content (text : string) : string :=
  gitignore_content_with always_patterns text.

(** ** Reference statements

    The definitions below do not embed code.  They phrase what the
    specification says, or what the code is shown to do, so that the
    properties can compare the code with them. *)

(** The byte values of [textchars], evaluated. *)
Definition textchars_evaluated : list byte := Eval vm_compute in textchars.

(** Membership of a byte value in a list of values. *)
Definition value_in (n : N) (l : list N) : bool := existsb (N.eqb n) l.

(** The allow-set as the specification words it: tab, newline, form feed,
    carriage return, escape, and [0x20 .. 0xFF] without [0x7F]. *)
Definition spec_text_byte (b : byte) : bool :=
  let n := Byte.to_N b in
  (value_in n [9; 10; 12; 13; 27]
   || (N.leb 0x20 n && N.leb n 0xFF && negb (N.eqb n 0x7F)))%bool%N.

(** The allow-set of the code: the above with bell and backspace. *)
Definition text_byte (b : byte) : bool :=
  let n := Byte.to_N b in
  (value_in n [7; 8; 9; 10; 12; 13; 27]
   || (N.leb 0x20 n && N.leb n 0xFF && negb (N.eqb n 0x7F)))%bool%N.

(** Printable ASCII: [0x20 .. 0x7E]. *)
Definition printable_ascii (b : byte) : bool :=
  let n := Byte.to_N b in (N.leb 0x20 n && N.leb n 0x7E)%bool%N.

(** The exclusion predicate as the specification words it: some segment of
    the path equals an exclusion pattern, or the leaf starts with a dot. *)
Definition spec_isExcluded (path : string) : bool :=
  let segments := PyStr.split_char "/" path in
  (existsb (fun seg => existsb (String.eqb seg) EXCLUDE_PATTERNS) segments
   || PyStr.startswith (List.last segments "") ".")%bool.

(** The extension language detection looks at: the lower-cased suffix. *)
Definition extension_of (file : string) : string := PyStr.lower (path_suffix file).

(** Some file of the list carries the extension [e]. *)
Definition carries (files : list string) (e : string) : bool :=
  existsb (fun f => String.eqb (extension_of f) e) files.

(** The language categories in their priority order, each with its
    extensions. *)
Definition LANGUAGE_PRIORITY : list (string * list string) :=
  [("Python", [".py"]);
   ("JavaScript/TypeScript", [".js"; ".ts"]);
   ("Java", [".java"]);
   ("C/C++", [".cpp"; ".c"]);
   ("Go", [".go"]);
   ("Rust", [".rs"]);
   ("Ruby", [".rb"]);
   ("PHP", [".php"])].

Definition recognized_extensions : list string := flat_map snd LANGUAGE_PRIORITY.

(** Some file of the list carries one of the extensions [exts]. *)
Definition category_present (files : list string) (exts : list string) : bool :=
  existsb (fun f => existsb (String.eqb (extension_of f)) exts) files.

(** The first category of the priority order that is present, [Unknown]
    when none is. *)
Definition first_matching_language (files : list string) : string :=
  match List.find (fun category => category_present files (snd category)) LANGUAGE_PRIORITY with
  | Some category => fst category
  | None => "Unknown"
  end.

(** A framework rule: whether the key word is looked for in the lower-cased
    path, the key word, and the framework it stands for. *)
Record rule : Type := {
  case_insensitive : bool;
  keyword : string;
  framework_name : string
}.

(** Some path of the list matches the rule. *)
Definition rule_matches (files : list string) (r : rule) : bool :=
  existsb (fun f => PyStr.contains (keyword r)
                      (if case_insensitive r then PyStr.lower f else f)) files.

(** The framework of the first rule that matches, none when no rule does. *)
Definition first_rule (rules : list rule) (files : list string) : option string :=
  option_map framework_name (List.find (rule_matches files) rules).

(** The rules as the specification words them: every key word is looked
    for case-insensitively. *)
Definition spec_python_rules : list rule :=
  [{| case_insensitive := true; keyword := "django"; framework_name := "Django" |};
   {| case_insensitive := true; keyword := "flask"; framework_name := "Flask" |};
   {| case_insensitive := true; keyword := "fastapi"; framework_name := "FastAPI" |};
   {| case_insensitive := true; keyword := "requirements.txt"; framework_name := "Python" |}].

Definition spec_js_rules : list rule :=
  [{| case_insensitive := true; keyword := "package.json"; framework_name := "Node.js" |};
   {| case_insensitive := true; keyword := "react"; framework_name := "React" |};
   {| case_insensitive := true; keyword := "vue"; framework_name := "Vue.js" |};
   {| case_insensitive := true; keyword := "angular"; framework_name := "Angular" |}].

(** The rules of the code: the two manifest names are looked for as
    written. *)
Definition python_rules : list rule :=
  [{| case_insensitive := true; keyword := "django"; framework_name := "Django" |};
   {| case_insensitive := true; keyword := "flask"; framework_name := "Flask" |};
   {| case_insensitive := true; keyword := "fastapi"; framework_name := "FastAPI" |};
   {| case_insensitive := false; keyword := "requirements.txt"; framework_name := "Python" |}].

Definition js_rules : list rule :=
  [{| case_insensitive := false; keyword := "package.json"; framework_name := "Node.js" |};
   {| case_insensitive := true; keyword := "react"; framework_name := "React" |};
   {| case_insensitive := true; keyword := "vue"; framework_name := "Vue.js" |};
   {| case_insensitive := true; keyword := "angular"; framework_name := "Angular" |}].

(** The category rules of structure analysis, each on its own. *)
Definition src_rule (e : entry) : bool :=
  (is_dir e && existsb (String.eqb (entry_name e)) ["src"; "app"; "lib"; "source"])%bool.

Definition test_rule (e : entry) : bool :=
  (is_dir e && PyStr.contains "test" (PyStr.lower (entry_name e)))%bool.

Definition config_rule (e : entry) : bool :=
  (is_file e && any_marker [".json"; ".yaml"; ".yml"; ".toml"; ".ini"] (entry_name e))%bool.

Definition build_rule (e : entry) : bool :=
  (is_file e && any_marker [".lock"; ".spec"; "build"] (entry_name e))%bool.

(** Structure analysis as the specification words it: every category
    collects the items its own rule matches. *)
Definition spec_structure (items : list entry) : Structure :=
  {| src_dirs := map entry_name (List.filter src_rule items);
     config_files := map entry_name (List.filter config_rule items);
     build_files := map entry_name (List.filter build_rule items);
     test_dirs := map entry_name (List.filter test_rule items) |}.

(** Structure analysis with the first matching rule winning: a directory is
    tried as a source directory before a test directory, a file as a
    configuration file before a build file. *)
Definition exclusive_structure (items : list entry) : Structure :=
  {| src_dirs := map entry_name (List.filter src_rule items);
     config_files := map entry_name (List.filter config_rule items);
     build_files :=
       map entry_name (List.filter (fun e => negb (config_rule e) && build_rule e)%bool items);
     test_dirs :=
       map entry_name (List.filter (fun e => negb (src_rule e) && test_rule e)%bool items) |}.

(** A project directory holding the items [items], with no file content to
    read. *)
Definition directory_of (path : string) (items : list entry) : World :=
  {| project_path := path;
     root := Directory (Some items);
     read_lines := fun _ => ReadFailed [];
     json_load := fun _ => Raise FileNotFoundError |}.

(** A project path that points to nothing. *)
Definition missing_project (path : string) : World :=
  {| project_path := path;
     root := Absent;
     read_lines := fun _ => ReadFailed [];
     json_load := fun _ => Raise FileNotFoundError |}.

(** Field-wise concatenation of two structure summaries. *)
Definition structure_app (a b : Structure) : Structure :=
  {| src_dirs := src_dirs a ++ src_dirs b;
     config_files := config_files a ++ config_files b;
     build_files := build_files a ++ build_files b;
     test_dirs := test_dirs a ++ test_dirs b |}.

(** The categories an item is placed in by [exclusive_structure]. *)
Definition placements (e : entry) : list bool :=
  List.filter (fun b => b)
    [src_rule e; (negb (src_rule e) && test_rule e)%bool;
     config_rule e; (negb (config_rule e) && build_rule e)%bool].

(** A Python project whose requirements file pins fourteen packages, two
    of them twice. *)
Definition crowded_requirements : World :=
  {| project_path := "/home/dev/crowded";
     root := Directory (Some [File "requirements.txt"; File "main.py"]);
     read_lines := fun path =>
       if String.eqb path "requirements.txt"
       then ReadAll (map (fun l => l +:+ String "010" EmptyString)
                      ["# pinned"; "flask==2.0"; "requests>=2.31"; "numpy<=1.26";
                       "flask==2.0"; "pandas"; "scipy"; "click"; "jinja2";
                       "rich"; "pytest"; "tox"; "black"; ""; "mypy"; "isort";
                       "requests==2.0"; "attrs"])
       else ReadFailed [];
     json_load := fun _ => Raise FileNotFoundError |}.

(** *** Failing steps of a text-generation provider *)

Section ProviderFailure.

Variable py_str : pyvalue -> string.
Variable exception_text : exn -> string.
Variable console_print : string -> result unit.

(** The console prints each of the texts without error. *)
Definition printed (texts : list string) : Prop :=
  List.Forall (fun message => console_print message = Ok tt) texts.

(** A step of the exchange with a chat client fails and the diagnostics of
    that failure are printed: listing the models raises, the required model
    is not listed, the request raises, the reply holds no alternative, or the
    text cannot be read out of the first one.  [model_missing],
    [check_failed] and [fallback] are the diagnostics of the provider. *)
Inductive chat_failure (required_model : string) (model_missing : list string)
    (check_failed fallback : exn -> list string)
    (client : ChatClient) (prompt : string) : Prop :=
| chat_listing_raises e :
    models_list client = Raise e ->
    printed (check_failed e) ->
    chat_failure required_model model_missing check_failed fallback client prompt
| chat_model_missing model_names :
    models_list client = Ok model_names ->
    existsb (String.eqb required_model) model_names = false ->
    printed model_missing ->
    chat_failure required_model model_missing check_failed fallback client prompt
| chat_request_raises model_names e :
    models_list client = Ok model_names ->
    existsb (String.eqb required_model) model_names = true ->
    complete client SYSTEM_PROMPT prompt = Raise e ->
    printed (fallback e) ->
    chat_failure required_model model_missing check_failed fallback client prompt
| chat_reply_empty model_names :
    models_list client = Ok model_names ->
    existsb (String.eqb required_model) model_names = true ->
    complete client SYSTEM_PROMPT prompt = Ok [] ->
    printed (fallback IndexError) ->
    chat_failure required_model model_missing check_failed fallback client prompt
| chat_text_unreadable model_names e rest :
    models_list client = Ok model_names ->
    existsb (String.eqb required_model) model_names = true ->
    complete client SYSTEM_PROMPT prompt = Ok (Raise e :: rest) ->
    printed (fallback e) ->
    chat_failure required_model model_missing check_failed fallback client prompt.

Inductive google_failure (client : GoogleClient) (prompt : string) : Prop :=
| google_listing_raises e :
    list_models client = Raise e ->
    printed (google_check_failed exception_text e) ->
    google_failure client prompt
| google_model_unlisted model_names :
    list_models client = Ok model_names ->
    existsb (String.eqb "models/gemini-pro") model_names = false ->
    printed google_model_missing ->
    google_failure client prompt
| google_request_raises model_names e :
    list_models client = Ok model_names ->
    existsb (String.eqb "models/gemini-pro") model_names = true ->
    generate_content client (full_prompt_of prompt) = Raise e ->
    printed (google_fallback exception_text e) ->
    google_failure client prompt
| google_text_unreadable model_names e :
    list_models client = Ok model_names ->
    existsb (String.eqb "models/gemini-pro") model_names = true ->
    generate_content client (full_prompt_of prompt) = Ok (Raise e) ->
    printed (google_fallback exception_text e) ->
    google_failure client prompt.

(** The Hugging Face check request is answered with status 200. *)
Definition hf_checked (self : READMEGenerator) (client : Session) : Prop :=
  exists check_resp,
    get client (hf_api_url self) (hf_headers self) = Ok check_resp
    /\ status_code check_resp = 200.

(** After a passed check, the generation request is answered by [response]
    with status 200. *)
Definition hf_answered (self : READMEGenerator) (client : Session) (prompt : string)
                       (response : Response) : Prop :=
  hf_checked self client
  /\ post client (hf_api_url self) (hf_headers self) (hf_payload (full_prompt_of prompt))
     = Ok response
  /\ status_code response = 200.

(** A step of the Hugging Face exchange fails and the diagnostics of that
    failure are printed: a request raises, a status is not 200, the body of
    the reply cannot be decoded, or the first item of the decoded list is not
    an object. *)
Inductive hf_failure (self : READMEGenerator) (client : Session)
                     (prompt : string) : Prop :=
| hf_check_raises e :
    get client (hf_api_url self) (hf_headers self) = Raise e ->
    printed (hf_fallback exception_text e) ->
    hf_failure self client prompt
| hf_check_status check_resp :
    get client (hf_api_url self) (hf_headers self) = Ok check_resp ->
    status_code check_resp <> 200 ->
    printed (hf_not_accessible py_str self check_resp) ->
    hf_failure self client prompt
| hf_request_raises e :
    hf_checked self client ->
    post client (hf_api_url self) (hf_headers self) (hf_payload (full_prompt_of prompt))
    = Raise e ->
    printed (hf_fallback exception_text e) ->
    hf_failure self client prompt
| hf_request_status response :
    hf_checked self client ->
    post client (hf_api_url self) (hf_headers self) (hf_payload (full_prompt_of prompt))
    = Ok response ->
    status_code response <> 200 ->
    printed (hf_api_error py_str response) ->
    hf_failure self client prompt
| hf_body_undecodable response e :
    hf_answered self client prompt response ->
    json response = Raise e ->
    printed (hf_fallback exception_text e) ->
    hf_failure self client prompt
| hf_item_not_object response item rest :
    hf_answered self client prompt response ->
    json response = Ok (PyList (item :: rest)) ->
    (forall bindings, item <> PyDict bindings) ->
    printed (hf_fallback exception_text AttributeError) ->
    hf_failure self client prompt.

(** The Ollama tags request is answered with status 200 and the tags list
    the required model. *)
Definition ollama_checked (self : READMEGenerator) (client : Session) : Prop :=
  exists tags_resp model_names,
    get client (ollama_tags_url self) [] = Ok tags_resp
    /\ status_code tags_resp = 200
    /\ ollama_model_names tags_resp = Ok model_names
    /\ existsb (is_str "codellama:7b-instruct") model_names = true.

(** After a passed check, the generation request is answered by [response]
    with status 200. *)
Definition ollama_answered (self : READMEGenerator) (client : Session) (prompt : string)
                           (response : Response) : Prop :=
  ollama_checked self client
  /\ post client (ollama_api_url self) [] (ollama_payload (full_prompt_of prompt))
     = Ok response
  /\ status_code response = 200.

(** A step of the Ollama exchange fails and the diagnostics of that failure
    are printed: a request raises, a status is not 200, the model names
    cannot be read out of the tags, the required model is not among them, the
    body of the reply cannot be decoded or is not an object. *)
Inductive ollama_failure (self : READMEGenerator) (client : Session)
                         (prompt : string) : Prop :=
| ollama_tags_raises e :
    get client (ollama_tags_url self) [] = Raise e ->
    printed (ollama_check_failed exception_text self e) ->
    ollama_failure self client prompt
| ollama_tags_status tags_resp :
    get client (ollama_tags_url self) [] = Ok tags_resp ->
    status_code tags_resp <> 200 ->
    printed (ollama_not_accessible py_str self tags_resp) ->
    ollama_failure self client prompt
| ollama_tags_unreadable tags_resp e :
    get client (ollama_tags_url self) [] = Ok tags_resp ->
    status_code tags_resp = 200 ->
    ollama_model_names tags_resp = Raise e ->
    printed (ollama_check_failed exception_text self e) ->
    ollama_failure self client prompt
| ollama_model_unlisted tags_resp model_names :
    get client (ollama_tags_url self) [] = Ok tags_resp ->
    status_code tags_resp = 200 ->
    ollama_model_names tags_resp = Ok model_names ->
    existsb (is_str "codellama:7b-instruct") model_names = false ->
    printed (ollama_model_missing self) ->
    ollama_failure self client prompt
| ollama_request_raises e :
    ollama_checked self client ->
    post client (ollama_api_url self) [] (ollama_payload (full_prompt_of prompt)) = Raise e ->
    printed (ollama_fallback exception_text e) ->
    ollama_failure self client prompt
| ollama_request_status response :
    ollama_checked self client ->
    post client (ollama_api_url self) [] (ollama_payload (full_prompt_of prompt))
    = Ok response ->
    status_code response <> 200 ->
    printed (ollama_api_error py_str response) ->
    ollama_failure self client prompt
| ollama_body_undecodable response e :
    ollama_answered self client prompt response ->
    json response = Raise e ->
    printed (ollama_fallback exception_text e) ->
    ollama_failure self client prompt
| ollama_body_not_object response result :
    ollama_answered self client prompt response ->
    json response = Ok result ->
    (forall bindings, result <> PyDict bindings) ->
    printed (ollama_fallback exception_text AttributeError) ->
    ollama_failure self client prompt.

(** A provider is configured, one of its steps fails and the diagnostics of
    the failure are printed. *)
Inductive provider_step_fails (self : READMEGenerator) (project_info : ProjectInfo)
                              (readme_type : string) : Prop :=
| openai_step_fails client :
    selected self "openai" (openai_client self) = Some client ->
    chat_failure "gpt-3.5-turbo" openai_model_missing
                 (openai_check_failed exception_text) (openai_fallback exception_text)
                 client (_create_ai_prompt py_str project_info readme_type) ->
    provider_step_fails self project_info readme_type
| anthropic_step_fails client :
    selected self "anthropic" (anthropic_client self) = Some client ->
    chat_failure "claude-3-haiku-20240307" anthropic_model_missing
                 (anthropic_check_failed exception_text)
                 (anthropic_fallback exception_text)
                 client (_create_ai_prompt py_str project_info readme_type) ->
    provider_step_fails self project_info readme_type
| google_step_fails client :
    selected self "google" (google_client self) = Some client ->
    google_failure client (_create_ai_prompt py_str project_info readme_type) ->
    provider_step_fails self project_info readme_type
| huggingface_step_fails client :
    selected self "huggingface" (hf_client self) = Some client ->
    hf_failure self client (_create_ai_prompt py_str project_info readme_type) ->
    provider_step_fails self project_info readme_type
| ollama_step_fails client :
    selected self "ollama" (ollama_client self) = Some client ->
    ollama_failure self client (_create_ai_prompt py_str project_info readme_type) ->
    provider_step_fails self project_info readme_type.

End ProviderFailure.

(** The decoded body carries a text under [field]: it is an object that
    binds [field] to a string, or a non-empty list whose first item is such
    an object. *)
Definition binds_text (field : string) (v : pyvalue) : bool :=
  match v with
  | PyDict kvs => match dict_lookup field kvs with Some (PyStr _) => true | _ => false end
  | _ => false
  end.

Definition carries_text (field : string) (body : pyvalue) : bool :=
  match body with
  | PyList (item :: _) => binds_text field item
  | _ => binds_text field body
  end.

(** A rendering of values that renders nothing, for runs in which no value
    is rendered into the result. *)
Definition no_rendering (v : pyvalue) : string := "".

(** An exception text: every exception reports [connection refused]. *)
Definition refused_text (e : exn) : string := "connection refused".

(** A console that prints every text. *)
Definition plain_console (message : string) : result unit := Ok tt.

(** An exception text that holds the closing tag of an instruction block,
    and a console that refuses every text holding that tag, as the markup
    parser does for a closing tag without an opening one. *)
Definition tagged_text (e : exn) : string := "proxy said: [/INST]".

Definition tag_checking_console (message : string) : result unit :=
  if PyStr.contains "[/INST]" message then Raise MarkupError else Ok tt.

(** The descriptor of the scenario of the specification: a Python project
    without framework, tests or license file. *)
Definition my_cool_app : ProjectInfo :=
  {| name := "my-cool-app";
     description := "A my cool app project";
     language := "Python";
     framework := None;
     dependencies := [];
     files := ["main.py"];
     structure := empty_structure;
     has_tests := false;
     has_docs := false;
     has_license := false;
     has_requirements := false |}.

(** The double quote character. *)
Definition dq : string := String (ascii_of_nat 34) EmptyString.

(** An inference endpoint that answers every request with status 200 and
    an object that binds [error] to the text [Model is overloaded]. *)
Definition overloaded_reply : Response :=
  {| status_code := 200;
     json := Ok (PyDict [("error", PyStr "Model is overloaded")]);
     text := "{" +:+ dq +:+ "error" +:+ dq +:+ ": "
                 +:+ dq +:+ "Model is overloaded" +:+ dq +:+ "}" |}.

Definition overloaded_endpoint : Session :=
  {| get := fun _ _ => Ok overloaded_reply;
     post := fun _ _ _ => Ok overloaded_reply |}.

Definition huggingface_generator (client : Session) : READMEGenerator :=
  {| selected_provider := "huggingface";
     openai_client := None;
     anthropic_client := None;
     google_client := None;
     hf_client := Some client;
     ollama_client := None;
     hf_api_key := "hf_key";
     hf_model := "bigcode/starcoder";
     ollama_endpoint := "" |}.

(** A chat service that lists the model [model] and answers every request
    with the one text [answer]. *)
Definition answering_client (model answer : string) : ChatClient :=
  {| models_list := Ok ["text-embedding-3-small"; model];
     complete := fun _ _ => Ok [Ok (PyStr answer)] |}.

Definition openai_generator (client : ChatClient) : READMEGenerator :=
  {| selected_provider := "openai";
     openai_client := Some client;
     anthropic_client := None;
     google_client := None;
     hf_client := None;
     ollama_client := None;
     hf_api_key := "";
     hf_model := "";
     ollama_endpoint := "" |}.

(** An inference endpoint that cannot be reached. *)
Definition unreachable_endpoint : Session :=
  {| get := fun _ _ => Raise ServiceError;
     post := fun _ _ _ => Raise ServiceError |}.

(** The license sentence of the templates. *)
Definition MIT_SENTENCE : string := "This project is licensed under the MIT License".

(** *** Reference statements for the further properties *)

(** Induction over directory trees. *)
Fixpoint entry_induction (P : entry -> Prop)
    (Hfile : forall n, P (File n))
    (Hclosed : forall n, P (Dir n None))
    (Hlisted : forall n es, Forall P es -> P (Dir n (Some es)))
    (e : entry) : P e :=
  match e with
  | File n => Hfile n
  | Dir n None => Hclosed n
  | Dir n (Some es) =>
      Hlisted n es
        ((fix all (l : list entry) : Forall P l :=
            match l with
            | [] => List.Forall_nil P
            | c :: l' =>
                @List.Forall_cons entry P c l' (entry_induction P Hfile Hclosed Hlisted c) (all l')
            end) es)
  end.

(** [lists_file es ds f]: below a directory with the entries [es], the
    chain of directories [ds], none of them pruned and each of them listable,
    leads to a file [f] that the scan keeps. *)
Inductive lists_file : list entry -> list string -> string -> Prop :=
| lists_here es f :
    In (File f) es -> keep_file f = true ->
    lists_file es [] f
| lists_below es d sub ds f :
    In (Dir d (Some sub)) es -> keep_dir d = true -> lists_file sub ds f ->
    lists_file es (d :: ds) f.

(** The relative path of a chain of names below the directory [top]. *)
Definition rel_path (top : string) (names : list string) : string :=
  foldl rel_join top names.

(** The file paths a walk delivers (lines 47-50). *)
Definition files_of_walk (walk : list (string * list string)) : list string :=
  flat_map (fun '(top, filenames) =>
              map (rel_join top) (List.filter keep_file filenames)) walk.

(** The listing of an entry, when it is a directory that can be listed. *)
Definition listing_of (e : entry) : option (list entry) :=
  match e with
  | File _ => None
  | Dir _ listing => listing
  end.

(** The names of the languages detection can report. *)
Definition LANGUAGES : list string :=
  map fst LANGUAGE_PRIORITY ++ ["Unknown"].

(** [str.isalnum] on an ASCII character. *)
Definition ascii_isalnum (c : ascii) : bool :=
  (PyStr.is_alpha c || PyStr.in_range "0" "9" c)%bool.

(** All characters of [s] satisfy [p]. *)
Fixpoint all_chars (p : ascii -> bool) (s : string) : bool :=
  match s with
  | EmptyString => true
  | String c r => (p c && all_chars p r)%bool
  end.

(** [c] is an ASCII character: as a byte of UTF-8 text it is a code point
    of its own. *)
Definition is_ascii (c : ascii) : bool := (N_of_ascii c <? 128)%N.

(** A small project tree: sources, a pruned virtual environment, a hidden
    file and a log. *)
Definition shop_tree : list entry :=
  [File "app.py"; File ".env"; File "debug.log";
   Dir ".git" (Some [File "config"]);
   Dir "src" (Some [File "core.py";
                    Dir "venv" (Some [File "site.py"]);
                    Dir "web" (Some [File "cache.pyc"; File "index.js"])]);
   Dir "vault" None].

(** The descriptor of the project [/home/dev/shop] with that tree. *)
Definition shop_descriptor : ProjectInfo :=
  {| name := "shop"; description := "A shop project"; language := "Python";
     framework := None; dependencies := [];
     files := ["app.py"; "src/core.py"; "src/web/index.js"];
     structure := {| src_dirs := ["src"]; config_files := [];
                     build_files := []; test_dirs := [] |};
     has_tests := false; has_docs := false; has_license := false;
     has_requirements := false |}.

(** A JavaScript project whose manifest binds [devDependencies] to a list. *)
Definition skewed_manifest : World :=
  {| project_path := "/home/dev/skewed";
     root := Directory (Some [File "package.json"; File "index.js"]);
     read_lines := fun _ => ReadFailed [];
     json_load := fun path =>
       if String.eqb path "package.json"
       then Ok (PyDict [("name", PyStr "skewed");
                        ("dependencies",
                         PyDict [("react", PyStr "^18.0.0"); ("vue", PyStr "^3.0.0")]);
                        ("devDependencies", PyList [PyStr "eslint"])])
       else Raise FileNotFoundError |}.

(** A JavaScript project whose manifest declares one dependency in each
    section. *)
Definition web_manifest : World :=
  {| project_path := "/home/dev/web";
     root := Directory (Some [File "package.json"; File "index.js"]);
     read_lines := fun _ => ReadFailed [];
     json_load := fun _ =>
       Ok (PyDict [("dependencies", PyDict [("react", PyStr "^18.0.0")]);
                   ("devDependencies", PyDict [("eslint", PyStr "^8.0.0")])]) |}.

(** A Python project with a short requirements file. *)
Definition api_requirements : World :=
  {| project_path := "/home/dev/api";
     root := Directory (Some [File "requirements.txt"; File "app.py"]);
     read_lines := fun _ => ReadAll ["flask==2.0"; "# tools"; "pytest>=7"];
     json_load := fun _ => Raise FileNotFoundError |}.

(** A Go project with one configuration file. *)
Definition go_shop : ProjectInfo :=
  {| name := "shop"; description := "A shop project"; language := "Go";
     framework := None; dependencies := []; files := ["main.go"; "app.toml"];
     structure := exclusive_structure [File "main.go"; File "app.toml"];
     has_tests := false; has_docs := false; has_license := false;
     has_requirements := false |}.
(** * Properties *)

(** ** Sanity checks of the string primitives *)

Example lower_mixed : PyStr.lower "ReadMe.MD" = "readme.md".
Proof. reflexivity. Qed.

Example title_words : PyStr.title "my cool_app" = "My Cool_App".
Proof. reflexivity. Qed.

Example contains_inner : PyStr.contains "venv" "src/myvenv.py" = true.
Proof. reflexivity. Qed.

Example split_head_pin : PyStr.split_head "==" "requests==2.31.0" = "requests".
Proof. reflexivity. Qed.

Example strip_line : PyStr.strip ("  flask>=2.0 " +:+ String "010" "") = "flask>=2.0".
Proof. reflexivity. Qed.

Example split_path : PyStr.split_char "/" "a//b/" = ["a"; ""; "b"; ""].
Proof. reflexivity. Qed.

Example rfind_dot : PyStr.rfind_from "." "a.tar.gz" = Some (5%nat, ".gz").
Proof. reflexivity. Qed.

(** ** Substrings *)

Lemma contains_cons (p : string) (c : ascii) (r : string) :
  PyStr.contains p (String c r)
  = if PyStr.startswith (String c r) p then true else PyStr.contains p r.
Proof. reflexivity. Qed.

Lemma contains_append_r (p s t : string) :
  PyStr.contains p t = true -> PyStr.contains p (s +:+ t) = true.
Proof.
  intros Ht. induction s as [|c s IH]; [exact Ht |].
  change (String c s +:+ t) with (String c (s +:+ t)).
  rewrite contains_cons, IH. destruct (PyStr.startswith _ p); reflexivity.
Qed.

Lemma startswith_append (p t : string) : PyStr.startswith (p +:+ t) p = true.
Proof.
  induction p as [|c p IH].
  - destruct t; reflexivity.
  - change (String c p +:+ t) with (String c (p +:+ t)).
    cbn [PyStr.startswith]. rewrite Ascii.eqb_refl. exact IH.
Qed.

Lemma contains_append_l (p t : string) : PyStr.contains p (p +:+ t) = true.
Proof.
  pose proof (startswith_append p t) as Hstart.
  destruct (p +:+ t) as [|c r].
  - cbn [PyStr.contains]. rewrite Hstart. reflexivity.
  - rewrite contains_cons, Hstart. reflexivity.
Qed.

Lemma contains_infix (p a b : string) : PyStr.contains p (a +:+ p +:+ b) = true.
Proof. apply contains_append_r, contains_append_l. Qed.

Lemma split_char_head_prefix (c : ascii) (s : string) :
  exists w ws post, PyStr.split_char c s = w :: ws /\ s = w +:+ post.
Proof.
  induction s as [|a r IH].
  - exists "", [], "". split; reflexivity.
  - destruct IH as (w & ws & post & Hsplit & Hr). cbn [PyStr.split_char].
    destruct (Ascii.eqb a c).
    + exists "", (PyStr.split_char c r), (String a r). split; reflexivity.
    + rewrite Hsplit. exists (String a w), ws, post. split; [reflexivity |].
      rewrite Hr at 1. reflexivity.
Qed.

Lemma split_char_segment_infix (c : ascii) (s seg : string) :
  In seg (PyStr.split_char c s) -> exists pre post, s = pre +:+ seg +:+ post.
Proof.
  revert seg. induction s as [|a r IH]; intros seg Hin.
  - destruct Hin as [<- | []]. exists "", "". reflexivity.
  - cbn [PyStr.split_char] in Hin. destruct (Ascii.eqb a c).
    + destruct Hin as [<- | Hin].
      * exists "", (String a r). reflexivity.
      * destruct (IH seg Hin) as (pre & post & Hr).
        exists (String a pre), post. rewrite Hr at 1. reflexivity.
    + destruct (split_char_head_prefix c r) as (w & ws & post & Hsplit & Hr).
      rewrite Hsplit in Hin. destruct Hin as [<- | Hin].
      * exists "", post. rewrite Hr at 1. reflexivity.
      * assert (In seg (PyStr.split_char c r)) as Hin' by (rewrite Hsplit; right; exact Hin).
        destruct (IH seg Hin') as (pre & post' & Hr').
        exists (String a pre), post'. rewrite Hr' at 1. reflexivity.
Qed.

(** ** File classifier *)

Lemma textchars_evaluated_eq : textchars = textchars_evaluated.
Proof. vm_compute. reflexivity. Qed.

Lemma byte_in_textchars (b : byte) : byte_in b textchars = text_byte b.
Proof. rewrite textchars_evaluated_eq. destruct b; vm_compute; reflexivity. Qed.

Lemma translate_delete_nil_iff (content delete : list byte) :
  translate_delete content delete = [] <->
  forall b, In b content -> byte_in b delete = true.
Proof.
  unfold translate_delete. induction content as [|c content IH]; simpl.
  - split; [intros _ b [] | reflexivity].
  - destruct (byte_in c delete) eqn:Hc; simpl.
    + rewrite IH. split.
      * intros H b [<- | Hb]; [exact Hc | apply H, Hb].
      * intros H b Hb. apply H. right. exact Hb.
    + split; [discriminate |].
      intros H. specialize (H c (or_introl eq_refl)). congruence.
Qed.

Lemma is_binary_false_iff (content : list byte) :
  is_binary content = false <-> forall b, In b content -> text_byte b = true.
Proof.
  unfold is_binary.
  destruct (translate_delete content textchars) eqn:Ht.
  - pose proof (proj1 (translate_delete_nil_iff _ _) Ht) as Hall.
    split; [intros _ b Hb | reflexivity].
    rewrite <- byte_in_textchars. apply Hall, Hb.
  - split; [discriminate |]. intros H. exfalso.
    assert (Hnil : translate_delete content textchars = []).
    { apply translate_delete_nil_iff. intros c Hc.
      rewrite byte_in_textchars. apply H, Hc. }
    congruence.
Qed.

Lemma is_binary_true_iff (content : list byte) :
  is_binary content = true <-> exists b, In b content /\ text_byte b = false.
Proof.
  split.
  - intros Hbin. induction content as [|c content IH].
    + discriminate.
    + destruct (text_byte c) eqn:Hc.
      * destruct IH as [b [Hb Hf]].
        { destruct (is_binary content) eqn:E; [reflexivity |].
          exfalso.
          pose proof (proj1 (is_binary_false_iff _) E) as Hall.
          assert (is_binary (c :: content) = false) as E'.
          { apply is_binary_false_iff. intros b [<- | Hb]; [exact Hc | apply Hall, Hb]. }
          congruence. }
        exists b. split; [right; exact Hb | exact Hf].
      * exists c. split; [left; reflexivity | exact Hc].
  - intros [b [Hb Hf]]. destruct (is_binary content) eqn:E; [reflexivity |].
    pose proof (proj1 (is_binary_false_iff _) E b Hb) as Ht.
    rewrite Ht in Hf. discriminate.
Qed.

(** C3 (amended).  A buffer is binary exactly when it holds a byte outside
    the allow-set of the code: bell, backspace, tab, newline, form feed,
    carriage return, escape, and [0x20 .. 0xFF] without [0x7F].  So the empty
    buffer and every printable-ASCII buffer are not binary, a buffer holding
    [0x00] is, and a buffer of bells and backspaces is not. *)
Theorem is_binary_allow_set :
  (forall content, is_binary content = true <->
                   exists b, In b content /\ text_byte b = false)
  /\ is_binary [] = false
  /\ (forall content, (forall b, In b content -> printable_ascii b = true) ->
                      is_binary content = false)
  /\ (forall content, In x00 content -> is_binary content = true)
  /\ (forall content, (forall b, In b content -> b = x07 \/ b = x08) ->
                      is_binary content = false).
Proof.
  split; [exact is_binary_true_iff |].
  split; [reflexivity |].
  split; [| split].
  - intros content Hall. apply is_binary_false_iff. intros b Hb.
    specialize (Hall b Hb). destruct b; try discriminate Hall; reflexivity.
  - intros content H0. apply is_binary_true_iff. exists x00. split; [exact H0 | reflexivity].
  - intros content Hall. apply is_binary_false_iff. intros b Hb.
    destruct (Hall b Hb) as [-> | ->]; reflexivity.
Qed.

Lemma is_binary_allow_set_witness :
  is_binary [x68; x69] = false /\ is_binary [x61; x00] = true /\ is_binary [x07; x08] = false.
Proof.
  destruct is_binary_allow_set as (_ & _ & Hprint & Hnul & Hbell).
  split; [| split].
  - apply Hprint. intros b [<- | [<- | []]]; reflexivity.
  - apply Hnul. right. left. reflexivity.
  - apply Hbell. intros b [<- | [<- | []]]; [left | right]; reflexivity.
Defined.

(** C3, as stated, fails on the one-byte buffer [0x07]: the bell is outside
    the allow-set the claim lists, yet the buffer is not binary. *)
Lemma is_binary_bell_counterexample :
  (exists b, In b [x07] /\ spec_text_byte b = false) /\ is_binary [x07] = false.
Proof.
  split; [| reflexivity]. exists x07. split; [left; reflexivity | reflexivity].
Qed.

Lemma should_exclude_iff (file_path : string) :
  should_exclude file_path = true <->
  exists pattern, In pattern EXCLUDE_PATTERNS /\ PyStr.contains pattern file_path = true.
Proof. unfold should_exclude. apply existsb_exists. Qed.

(** X6.  A path with a segment that is an exclusion pattern is excluded:
    the substring test covers the segment rule. *)
Lemma should_exclude_covers_segments (file_path : string) :
  existsb (fun seg => existsb (String.eqb seg) EXCLUDE_PATTERNS)
          (PyStr.split_char "/" file_path) = true ->
  should_exclude file_path = true.
Proof.
  intros Hseg. apply existsb_exists in Hseg. destruct Hseg as (seg & Hin & Hpat).
  apply existsb_exists in Hpat. destruct Hpat as (pattern & Hpattern & Heq).
  apply String.eqb_eq in Heq. subst seg.
  apply should_exclude_iff. exists pattern. split; [exact Hpattern |].
  destruct (split_char_segment_infix _ _ _ Hin) as (pre & post & ->).
  apply contains_infix.
Qed.

(** C2.  [should_exclude] tests substring occurrence: it excludes
    [myvenv.py], no segment of which is an exclusion pattern, and keeps
    [.env], whose leaf starts with a dot.  The statement of the specification
    and the name test of the upload walk decide both the other way. *)
Theorem should_exclude_substring_divergence :
  should_exclude "myvenv.py" = true
  /\ spec_isExcluded "myvenv.py" = false
  /\ name_excluded "myvenv.py" = false
  /\ should_exclude ".env" = false
  /\ spec_isExcluded ".env" = true
  /\ name_excluded ".env" = true.
Proof. repeat split; reflexivity. Qed.

Example should_exclude_invented_modules :
  should_exclude "invented_modules" = false /\ should_exclude "src/venv/lib.py" = true.
Proof. split; reflexivity. Qed.

(** ** Language detection *)

Lemma truthy_iff (s : string) : PyStr.truthy s = true <-> s <> "".
Proof. destruct s; simpl; split; congruence. Qed.

Lemma count_extensions_lookup (e : string) (files : list string) (m : gmap string nat) :
  is_Some (foldl (fun (extensions : gmap string nat) file =>
                    let ext := PyStr.lower (path_suffix file) in
                    if PyStr.truthy ext
                    then <[ ext := (default 0 (extensions !! ext) + 1)%nat ]> extensions
                    else extensions) m files !! e)
  <-> is_Some (m !! e) \/ (e <> "" /\ exists f, In f files /\ extension_of f = e).
Proof.
  revert m. induction files as [|file files IH]; intros m; simpl.
  - split; [auto | intros [H | [_ [f [[] _]]]]; exact H].
  - rewrite IH. fold (extension_of file).
    destruct (PyStr.truthy (extension_of file)) eqn:Ht.
    + apply truthy_iff in Ht. rewrite lookup_insert_is_Some.
      destruct (decide (extension_of file = e)) as [<- | Hd]; split.
      * intros _. right. split; [exact Ht |].
        exists file. split; [left; reflexivity | reflexivity].
      * intros _. left. left. reflexivity.
      * intros [[He | [_ H]] | [Hne [f [Hf He]]]].
        -- contradiction.
        -- left. exact H.
        -- right. split; [exact Hne |]. exists f. split; [right; exact Hf | exact He].
      * intros [H | [Hne [f [[<- | Hf] He]]]].
        -- left. right. split; [exact Hd | exact H].
        -- contradiction.
        -- right. split; [exact Hne |]. exists f. split; [exact Hf | exact He].
    + assert (extension_of file = "") as Hempty
        by (destruct (extension_of file); [reflexivity | discriminate]).
      split.
      * intros [H | [Hne [f [Hf He]]]].
        -- left. exact H.
        -- right. split; [exact Hne |]. exists f. split; [right; exact Hf | exact He].
      * intros [H | [Hne [f [[<- | Hf] He]]]].
        -- left. exact H.
        -- congruence.
        -- right. split; [exact Hne |]. exists f. split; [exact Hf | exact He].
Qed.

Lemma has_key_count_extensions (e : string) (files : list string) :
  e <> "" ->
  has_key e (count_extensions files) = carries files e.
Proof.
  intros Hne. unfold has_key, count_extensions, carries.
  apply eq_true_iff_eq. rewrite bool_decide_eq_true, count_extensions_lookup.
  rewrite lookup_empty, existsb_exists. split.
  - intros [[x Hx] | [_ [f [Hf He]]]]; [discriminate |].
    exists f. split; [exact Hf | apply String.eqb_eq, He].
  - intros [f [Hf He]]. right. split; [exact Hne |].
    exists f. split; [exact Hf | apply String.eqb_eq, He].
Qed.

Lemma existsb_swap {A B : Type} (p : A -> B -> bool) (la : list A) (lb : list B) :
  existsb (fun a => existsb (p a) lb) la
  = existsb (fun b => existsb (fun a => p a b) la) lb.
Proof.
  induction la as [|a la IH]; simpl.
  - induction lb as [|b lb IHb]; simpl; [reflexivity | exact IHb].
  - rewrite IH. clear IH. induction lb as [|b lb IHb]; simpl.
    + reflexivity.
    + rewrite <- IHb.
      destruct (p a b), (existsb (fun a0 => p a0 b) la), (existsb (p a) lb); reflexivity.
Qed.

Lemma carries_false_iff (e : string) (files : list string) :
  carries files e = false <-> forall f, In f files -> extension_of f <> e.
Proof.
  split.
  - intros Hnone f Hf He.
    assert (carries files e = true) as Hsome.
    { unfold carries. apply existsb_exists. exists f. split; [exact Hf | apply String.eqb_eq, He]. }
    congruence.
  - intros Hall. destruct (carries files e) eqn:E; [| reflexivity].
    unfold carries in E. apply existsb_exists in E. destruct E as [f [Hf He]].
    apply String.eqb_eq in He. destruct (Hall f Hf He).
Qed.

Lemma detect_language_cases (files : list string) :
  _detect_language files =
  if carries files ".py" then "Python"
  else if (carries files ".js" || carries files ".ts")%bool then "JavaScript/TypeScript"
  else if carries files ".java" then "Java"
  else if (carries files ".cpp" || carries files ".c")%bool then "C/C++"
  else if carries files ".go" then "Go"
  else if carries files ".rs" then "Rust"
  else if carries files ".rb" then "Ruby"
  else if carries files ".php" then "PHP"
  else "Unknown".
Proof.
  unfold _detect_language.
  rewrite !has_key_count_extensions by discriminate. reflexivity.
Qed.

Lemma first_matching_language_cases (files : list string) :
  first_matching_language files =
  if carries files ".py" then "Python"
  else if (carries files ".js" || carries files ".ts")%bool then "JavaScript/TypeScript"
  else if carries files ".java" then "Java"
  else if (carries files ".cpp" || carries files ".c")%bool then "C/C++"
  else if carries files ".go" then "Go"
  else if carries files ".rs" then "Rust"
  else if carries files ".rb" then "Ruby"
  else if carries files ".php" then "PHP"
  else "Unknown".
Proof.
  unfold carries, first_matching_language, LANGUAGE_PRIORITY. cbn [List.find snd fst].
  unfold category_present.
  rewrite !(existsb_swap (fun f e => String.eqb (extension_of f) e)). cbn [existsb].
  repeat match goal with
         | |- context [existsb ?p files] => destruct (existsb p files)
         end; reflexivity.
Qed.

(** C1.  Language detection returns the first category of the priority
    order Python, JS/TS, Java, C/C++, Go, Rust, Ruby, PHP of which some file
    carries an extension, whatever the number of files per extension; it
    returns Unknown exactly when no file carries a recognized extension.  A
    list of fifty [.js] files and one [.py] file is detected as Python. *)
Theorem detect_language_priority :
  (forall files, _detect_language files = first_matching_language files)
  /\ (forall files, _detect_language files = "Unknown" <->
                    forall f, In f files -> ~ In (extension_of f) recognized_extensions)
  /\ _detect_language (repeat "app.js" 50 ++ ["main.py"]) = "Python".
Proof.
  split; [| split].
  - intros files. rewrite detect_language_cases, first_matching_language_cases.
    reflexivity.
  - intros files. rewrite detect_language_cases. split.
    + intros Hunknown f Hf Hin.
      assert (forall e, In e recognized_extensions -> carries files e = false) as Hnone.
      { intros e He. simpl in He.
        repeat match type of Hunknown with
               | context [carries files ?x] =>
                   destruct (carries files x) eqn:?; simpl in Hunknown;
                   try discriminate Hunknown
               end.
        repeat (destruct He as [<- | He]; [assumption |]). destruct He. }
      pose proof (proj1 (carries_false_iff _ _) (Hnone _ Hin) f Hf) as Hne.
      apply Hne. reflexivity.
    + intros Hall.
      assert (forall e, In e recognized_extensions -> carries files e = false) as Hnone.
      { intros e He. apply carries_false_iff. intros f Hf Heq. subst e.
        exact (Hall f Hf He). }
      rewrite !Hnone by (simpl; tauto). reflexivity.
  - vm_compute. reflexivity.
Qed.

Lemma detect_language_priority_witness :
  _detect_language ["README"; "Makefile"; ".py"] = "Unknown".
Proof.
  destruct detect_language_priority as (_ & Hunknown & _).
  apply Hunknown.
  intros f [<- | [<- | [<- | []]]]; vm_compute; intuition discriminate.
Defined.

(** ** Framework detection *)

Lemma detect_framework_python (files : list string) :
  _detect_framework files "Python" = first_rule python_rules files.
Proof.
  unfold _detect_framework, first_rule, python_rules. cbn [String.eqb Ascii.eqb Bool.eqb].
  cbn [List.find]. unfold rule_matches, any_lower_contains, any_contains.
  cbn [case_insensitive keyword framework_name].
  repeat match goal with
         | |- context [if existsb ?p files then _ else _] => destruct (existsb p files)
         end; reflexivity.
Qed.

Lemma detect_framework_js (files : list string) :
  _detect_framework files "JavaScript/TypeScript" = first_rule js_rules files.
Proof.
  unfold _detect_framework, first_rule, js_rules.
  change (String.eqb "JavaScript/TypeScript" "Python") with false.
  change (String.eqb "JavaScript/TypeScript" "JavaScript/TypeScript") with true.
  cbn [List.find]. unfold rule_matches, any_lower_contains, any_contains.
  cbn [case_insensitive keyword framework_name].
  repeat match goal with
         | |- context [if existsb ?p files then _ else _] => destruct (existsb p files)
         end; reflexivity.
Qed.

Lemma detect_framework_other (files : list string) (language : string) :
  language <> "Python" -> language <> "JavaScript/TypeScript" ->
  _detect_framework files language = None.
Proof.
  intros Hpy Hjs. unfold _detect_framework.
  destruct (String.eqb_spec language "Python"); [contradiction |].
  destruct (String.eqb_spec language "JavaScript/TypeScript"); [contradiction |].
  reflexivity.
Qed.

(** C7 (amended).  Framework detection looks only at the path strings and
    only for the languages Python and JavaScript/TypeScript; the rules are
    tried in their written order and the first that matches wins.  The key
    words django, flask, fastapi, react, vue and angular are looked for in
    the lower-cased paths; the manifest names requirements.txt and
    package.json are looked for as written, so [REQUIREMENTS.TXT] and
    [Package.JSON] do not match.  A JS/TS project with a package.json path
    and a react path yields Node.js; every other language yields none. *)
Theorem detect_framework_first_rule :
  (forall files, _detect_framework files "Python" = first_rule python_rules files)
  /\ (forall files,
        _detect_framework files "JavaScript/TypeScript" = first_rule js_rules files)
  /\ (forall files language,
        language <> "Python" -> language <> "JavaScript/TypeScript" ->
        _detect_framework files language = None)
  /\ _detect_framework ["package.json"; "src/react/App.js"] "JavaScript/TypeScript"
     = Some "Node.js"
  /\ _detect_framework ["REQUIREMENTS.TXT"; "main.py"] "Python" = None
  /\ _detect_framework ["Package.JSON"; "index.js"] "JavaScript/TypeScript" = None
  /\ _detect_framework ["Django/Settings.py"; "requirements.txt"] "Python" = Some "Django".
Proof.
  split; [exact detect_framework_python |].
  split; [exact detect_framework_js |].
  split; [exact detect_framework_other |].
  repeat split; reflexivity.
Qed.

Lemma detect_framework_first_rule_witness :
  _detect_framework ["django/app.go"; "main.go"] (_detect_language ["django/app.go"; "main.go"])
  = None.
Proof.
  destruct detect_framework_first_rule as (_ & _ & Hother & _).
  apply Hother; vm_compute; discriminate.
Defined.

(** C7, as stated, fails on the Python project [REQUIREMENTS.TXT],
    [main.py]: a case-insensitive search for requirements.txt matches the
    first path, the code reports no framework. *)
Lemma detect_framework_case_counterexample :
  _detect_language ["REQUIREMENTS.TXT"; "main.py"] = "Python"
  /\ first_rule spec_python_rules ["REQUIREMENTS.TXT"; "main.py"] = Some "Python"
  /\ _detect_framework ["REQUIREMENTS.TXT"; "main.py"] "Python" = None.
Proof. repeat split; vm_compute; reflexivity. Qed.

(** ** Dependency extraction *)

Lemma list_of_set_NoDup (xs : list string) : NoDup (list_of_set xs).
Proof. unfold list_of_set. apply NoDup_elements. Qed.

(** C5.  Whatever the file list, the language and the content of the
    manifests, the extracted dependency list has no duplicates and at most
    ten entries. *)
Theorem extract_dependencies_bounded (w : World) (files : list string) (language : string) :
  List.NoDup (_extract_dependencies w files language)
  /\ (length (_extract_dependencies w files language) <= 10)%nat.
Proof.
  unfold _extract_dependencies. split.
  - apply NoDup_ListNoDup.
    eapply sublist_NoDup; [apply list_of_set_NoDup | apply sublist_take].
  - rewrite length_take. lia.
Qed.

Example extract_dependencies_crowded :
  _extract_dependencies crowded_requirements ["requirements.txt"; "main.py"] "Python"
  = ["scipy"; "click"; "mypy"; "isort"; "attrs"; "numpy"; "flask"; "jinja2";
     "requests"; "rich"].
Proof. vm_compute. reflexivity. Qed.

(** ** Structure analysis *)

Lemma structure_app_empty_l (s : Structure) : structure_app empty_structure s = s.
Proof. destruct s. reflexivity. Qed.

Lemma classify_items_app (items : list entry) (st : Structure) :
  foldl classify_item st items = structure_app st (exclusive_structure items).
Proof.
  revert st. induction items as [|item items IH]; intros st.
  - destruct st. unfold structure_app. simpl. rewrite !app_nil_r. reflexivity.
  - cbn [foldl]. rewrite IH. unfold exclusive_structure, structure_app.
    cbn [List.filter src_dirs config_files build_files test_dirs].
    unfold classify_item, src_rule, test_rule, config_rule, build_rule, is_file.
    destruct item as [n | n l]; cbn [is_dir entry_name negb andb].
    + destruct (any_marker [".json"; ".yaml"; ".yml"; ".toml"; ".ini"] n);
        [| destruct (any_marker [".lock"; ".spec"; "build"] n)];
        cbn [negb andb map src_dirs config_files build_files test_dirs];
        rewrite <- ?app_assoc; reflexivity.
    + destruct (existsb (String.eqb n) ["src"; "app"; "lib"; "source"]);
        [| destruct (PyStr.contains "test" (PyStr.lower n))];
        cbn [negb andb map src_dirs config_files build_files test_dirs];
        rewrite <- ?app_assoc; reflexivity.
Qed.

Lemma placements_at_most_one (e : entry) : (length (placements e) <= 1)%nat.
Proof.
  unfold placements, src_rule, test_rule, config_rule, build_rule, is_file.
  destruct e as [n | n l]; cbn [is_dir entry_name negb andb].
  - destruct (any_marker [".json"; ".yaml"; ".yml"; ".toml"; ".ini"] n),
             (any_marker [".lock"; ".spec"; "build"] n); simpl; lia.
  - destruct (existsb (String.eqb n) ["src"; "app"; "lib"; "source"]),
             (PyStr.contains "test" (PyStr.lower n)); simpl; lia.
Qed.

(** C6 (amended).  Structure analysis of the immediate children places an
    item in the first category whose rule it matches and in no other: a
    directory in [src_dirs] when it is named src, app, lib or source, else in
    [test_dirs] when its name contains test; a file in [config_files] when its
    name contains a configuration marker, else in [build_files] when it
    contains a build marker.  The file [package.lock.json] is a configuration
    file only. *)
Theorem analyze_structure_first_match (w : World) (items : list entry) :
  root w = Directory (Some items) ->
  _analyze_structure w = Ok (exclusive_structure items)
  /\ (forall e, In e items -> (length (placements e) <= 1)%nat)
  /\ exclusive_structure [File "package.lock.json"]
     = {| src_dirs := []; config_files := ["package.lock.json"];
          build_files := []; test_dirs := [] |}.
Proof.
  intros Hroot. split; [| split].
  - unfold _analyze_structure, iterdir. rewrite Hroot.
    rewrite classify_items_app, structure_app_empty_l. reflexivity.
  - intros e _. apply placements_at_most_one.
  - reflexivity.
Qed.

Lemma analyze_structure_first_match_witness :
  _analyze_structure
    (directory_of "/home/dev/shop"
       [Dir "src" (Some []); Dir "tests" (Some []); File "package.lock.json";
        File "build.sh"; File "README.md"])
  = Ok {| src_dirs := ["src"]; config_files := ["package.lock.json"];
          build_files := ["build.sh"]; test_dirs := ["tests"] |}.
Proof.
  exact (proj1 (analyze_structure_first_match
                  (directory_of "/home/dev/shop"
                     [Dir "src" (Some []); Dir "tests" (Some []);
                      File "package.lock.json"; File "build.sh"; File "README.md"])
                  _ eq_refl)).
Defined.

(** C6, as stated, fails on a directory holding the file
    [package.lock.json]: its name matches the configuration rule and the
    build rule, independent matching lists it under both, the code lists it
    under [config_files] only. *)
Lemma analyze_structure_lock_json_counterexample :
  config_rule (File "package.lock.json") = true
  /\ build_rule (File "package.lock.json") = true
  /\ build_files (spec_structure [File "package.lock.json"]) = ["package.lock.json"]
  /\ _analyze_structure (directory_of "/home/dev/shop" [File "package.lock.json"])
     = Ok {| src_dirs := []; config_files := ["package.lock.json"];
             build_files := []; test_dirs := [] |}.
Proof. repeat split; reflexivity. Qed.

(** ** Project scan *)

Example scan_prunes_and_filters :
  _get_project_files
    (directory_of "/home/dev/shop"
       [File "app.py"; File ".env"; File "debug.log";
        Dir ".git" (Some [File "config"]);
        Dir "src" (Some [File "core.py";
                         Dir "venv" (Some [File "site.py"]);
                         Dir "web" (Some [File "cache.pyc"; File "index.js"])]);
        Dir "vault" None])
  = Ok ["app.py"; "src/core.py"; "src/web/index.js"].
Proof. reflexivity. Qed.

(** C4 (amended).  When the project path does not exist or is not a
    directory, the scan returns the empty file list without an error; it is
    structure analysis, later in [analyze], that raises the I/O error, so
    [analyze] as a whole fails. *)
Theorem scan_of_missing_root (w : World) :
  root w = Absent \/ root w = RegularFile ->
  _get_project_files w = Ok []
  /\ exists e, analyze w = Raise e /\ is_IOError e = true.
Proof.
  intros Hroot.
  assert (_get_project_files w = Ok []) as Hscan.
  { unfold _get_project_files, os_walk. destruct Hroot as [-> | ->]; reflexivity. }
  split; [exact Hscan |].
  unfold analyze. rewrite Hscan. unfold _analyze_structure, iterdir.
  destruct Hroot as [-> | ->]; eexists; split; reflexivity.
Qed.

Lemma scan_of_missing_root_witness :
  _get_project_files (missing_project "/no/such/dir") = Ok []
  /\ exists e, analyze (missing_project "/no/such/dir") = Raise e /\ is_IOError e = true.
Proof.
  apply (scan_of_missing_root (missing_project "/no/such/dir")).
  left. reflexivity.
Defined.

(** C4, as stated, fails on a project path that points to nothing: the scan
    returns the empty list, it raises no error. *)
Lemma scan_missing_root_counterexample :
  _get_project_files (missing_project "/no/such/dir") = Ok []
  /\ forall e, _get_project_files (missing_project "/no/such/dir") <> Raise e.
Proof. split; [reflexivity | intros e; discriminate]. Qed.

(** ** Provider-backed generation *)

Section ProviderFallback.

Variable py_str : pyvalue -> string.
Variable exception_text : exn -> string.
Variable console_print : string -> result unit.

Lemma selected_Some {C : Type} (self : READMEGenerator) (provider : string)
                    (client : option C) (c : C) :
  selected self provider client = Some c ->
  selected_provider self = provider /\ client = Some c.
Proof.
  unfold selected. destruct (String.eqb_spec (selected_provider self) provider).
  - intros ->. split; [assumption | reflexivity].
  - discriminate.
Qed.

Lemma print_all_printed (texts : list string) :
  printed console_print texts -> print_all console_print texts = Ok tt.
Proof.
  induction 1 as [|message rest Hmessage _ IH]; [reflexivity |].
  cbn [print_all]. unfold mbind, result_bind. rewrite Hmessage. exact IH.
Qed.

Ltac run_result :=
  unfold try_except, mbind, result_bind, mret, result_ret, first_item; cbn beta iota.

Ltac print_diagnostics :=
  match goal with
  | H : printed _ _ |- _ => rewrite (print_all_printed _ H)
  end.

Lemma openai_failure_template (client : ChatClient) (info : ProjectInfo) (ty : string) :
  chat_failure console_print "gpt-3.5-turbo" openai_model_missing
               (openai_check_failed exception_text) (openai_fallback exception_text)
               client (_create_ai_prompt py_str info ty) ->
  _generate_openai_readme py_str exception_text console_print client info ty
  = Ok (PyStr (_generate_template_readme info ty)).
Proof.
  intros Hfail. unfold _generate_openai_readme. run_result.
  destruct Hfail as [e Hl Hp | names Hl Hm Hp | names e Hl Hm Hc Hp
                    | names Hl Hm Hc Hp | names e rest Hl Hm Hc Hp];
    rewrite Hl; cbn beta iota; rewrite ?Hm; cbn [negb]; cbn beta iota;
    rewrite ?Hc; cbn beta iota; print_diagnostics; reflexivity.
Qed.

Lemma anthropic_failure_template (client : ChatClient) (info : ProjectInfo) (ty : string) :
  chat_failure console_print "claude-3-haiku-20240307" anthropic_model_missing
               (anthropic_check_failed exception_text) (anthropic_fallback exception_text)
               client (_create_ai_prompt py_str info ty) ->
  _generate_anthropic_readme py_str exception_text console_print client info ty
  = Ok (PyStr (_generate_template_readme info ty)).
Proof.
  intros Hfail. unfold _generate_anthropic_readme. run_result.
  destruct Hfail as [e Hl Hp | names Hl Hm Hp | names e Hl Hm Hc Hp
                    | names Hl Hm Hc Hp | names e rest Hl Hm Hc Hp];
    rewrite Hl; cbn beta iota; rewrite ?Hm; cbn [negb]; cbn beta iota;
    rewrite ?Hc; cbn beta iota; print_diagnostics; reflexivity.
Qed.

Lemma google_failure_template (client : GoogleClient) (info : ProjectInfo) (ty : string) :
  google_failure exception_text console_print client (_create_ai_prompt py_str info ty) ->
  _generate_google_readme py_str exception_text console_print client info ty
  = Ok (PyStr (_generate_template_readme info ty)).
Proof.
  intros Hfail. unfold _generate_google_readme. run_result.
  destruct Hfail as [e Hl Hp | names Hl Hm Hp | names e Hl Hm Hc Hp
                    | names e Hl Hm Hc Hp];
    rewrite Hl; cbn beta iota; rewrite ?Hm; cbn [negb]; cbn beta iota;
    rewrite ?Hc; cbn beta iota; print_diagnostics; reflexivity.
Qed.

Lemma status_not_200 (r : Response) : status_code r <> 200 -> (status_code r =? 200) = false.
Proof. intros H. apply Z.eqb_neq, H. Qed.

Lemma status_200 (r : Response) : status_code r = 200 -> (status_code r =? 200) = true.
Proof. intros H. apply Z.eqb_eq, H. Qed.

Lemma py_get_not_object (v dflt : pyvalue) (field : string) :
  (forall bindings, v <> PyDict bindings) -> exists e, py_get v field dflt = Raise e.
Proof.
  intros Hnot. destruct v; try (eexists; reflexivity).
  destruct (Hnot bindings eq_refl).
Qed.

(** The Hugging Face path once the check and the request are answered with
    status 200: what remains is the reading of the body. *)
Lemma huggingface_answered (self : READMEGenerator) (client : Session)
                           (info : ProjectInfo) (ty : string) (response : Response) :
  hf_answered self client (_create_ai_prompt py_str info ty) response ->
  _generate_huggingface_readme py_str exception_text console_print self client info ty
  = try_except
      (result ← json response;
       match result with
       | PyList (item :: _) => py_get item "generated_text" (PyStr "")
       | PyDict _ => py_get result "generated_text" (PyStr "")
       | _ => Ok (PyStr (py_str result))
       end)
      (fun e => print_all console_print (hf_fallback exception_text e);;
                mret (PyStr (_generate_template_readme info ty))).
Proof.
  intros ((check_resp & Hget & Hstatus) & Hpost & Hstatus').
  unfold _generate_huggingface_readme. run_result.
  rewrite Hget, (status_200 _ Hstatus). cbn [negb].
  rewrite Hpost, (status_200 _ Hstatus'). reflexivity.
Qed.

Lemma huggingface_failure_template (self : READMEGenerator) (client : Session)
                                   (info : ProjectInfo) (ty : string) :
  hf_failure py_str exception_text console_print self client
             (_create_ai_prompt py_str info ty) ->
  _generate_huggingface_readme py_str exception_text console_print self client info ty
  = Ok (PyStr (_generate_template_readme info ty)).
Proof.
  intros [e Hget Hp | check_resp Hget Hs Hp | e (check_resp & Hget & Hs) Hpost Hp
         | response (check_resp & Hget & Hs) Hpost Hs' Hp
         | response e Hanswered Hj Hp | response item rest Hanswered Hj Hitem Hp].
  - unfold _generate_huggingface_readme. run_result. rewrite Hget.
    print_diagnostics. reflexivity.
  - unfold _generate_huggingface_readme. run_result.
    rewrite Hget, (status_not_200 _ Hs). cbn [negb]. print_diagnostics. reflexivity.
  - unfold _generate_huggingface_readme. run_result.
    rewrite Hget, (status_200 _ Hs). cbn [negb]. rewrite Hpost.
    print_diagnostics. reflexivity.
  - unfold _generate_huggingface_readme. run_result.
    rewrite Hget, (status_200 _ Hs). cbn [negb].
    rewrite Hpost, (status_not_200 _ Hs'). print_diagnostics. reflexivity.
  - rewrite (huggingface_answered _ _ _ _ _ Hanswered). run_result. rewrite Hj.
    print_diagnostics. reflexivity.
  - rewrite (huggingface_answered _ _ _ _ _ Hanswered). run_result. rewrite Hj.
    destruct (py_get_not_object item (PyStr "") "generated_text" Hitem) as [e He].
    assert (e = AttributeError) as -> by (destruct item; cbn in He; congruence).
    rewrite He. print_diagnostics. reflexivity.
Qed.

(** The Ollama path once the tags list the model and the request is
    answered with status 200. *)
Lemma ollama_passes_check (self : READMEGenerator) (client : Session)
                          (info : ProjectInfo) (ty : string) :
  ollama_checked self client ->
  _generate_ollama_readme py_str exception_text console_print self client info ty
  = try_except
      (response ← post client (ollama_api_url self) []
                       (ollama_payload (full_prompt_of (_create_ai_prompt py_str info ty)));
       if status_code response =? 200 then
         result ← json response;
         py_get result "response" (PyStr "")
       else print_all console_print (ollama_api_error py_str response);;
            mret (PyStr (_generate_template_readme info ty)))
      (fun e => print_all console_print (ollama_fallback exception_text e);;
                mret (PyStr (_generate_template_readme info ty))).
Proof.
  intros (tags_resp & names & Hget & Hstatus & Hnames & Hmodel).
  unfold _generate_ollama_readme. run_result.
  rewrite Hget, (status_200 _ Hstatus). cbn [negb].
  rewrite Hnames, Hmodel. reflexivity.
Qed.

Lemma ollama_failure_template (self : READMEGenerator) (client : Session)
                              (info : ProjectInfo) (ty : string) :
  ollama_failure py_str exception_text console_print self client
                 (_create_ai_prompt py_str info ty) ->
  _generate_ollama_readme py_str exception_text console_print self client info ty
  = Ok (PyStr (_generate_template_readme info ty)).
Proof.
  intros [e Hget Hp | tags_resp Hget Hs Hp | tags_resp e Hget Hs Hn Hp
         | tags_resp names Hget Hs Hn Hm Hp
         | e Hchecked Hpost Hp | response Hchecked Hpost Hs Hp
         | response e (Hchecked & Hpost & Hs) Hj Hp
         | response result (Hchecked & Hpost & Hs) Hj Hv Hp].
  - unfold _generate_ollama_readme. run_result. rewrite Hget.
    print_diagnostics. reflexivity.
  - unfold _generate_ollama_readme. run_result.
    rewrite Hget, (status_not_200 _ Hs). cbn [negb]. print_diagnostics. reflexivity.
  - unfold _generate_ollama_readme. run_result.
    rewrite Hget, (status_200 _ Hs). cbn [negb]. rewrite Hn.
    print_diagnostics. reflexivity.
  - unfold _generate_ollama_readme. run_result.
    rewrite Hget, (status_200 _ Hs). cbn [negb]. rewrite Hn, Hm. cbn [negb].
    print_diagnostics. reflexivity.
  - rewrite (ollama_passes_check _ _ _ _ Hchecked). run_result. rewrite Hpost.
    print_diagnostics. reflexivity.
  - rewrite (ollama_passes_check _ _ _ _ Hchecked). run_result.
    rewrite Hpost, (status_not_200 _ Hs). print_diagnostics. reflexivity.
  - rewrite (ollama_passes_check _ _ _ _ Hchecked). run_result.
    rewrite Hpost, (status_200 _ Hs), Hj. print_diagnostics. reflexivity.
  - rewrite (ollama_passes_check _ _ _ _ Hchecked). run_result.
    rewrite Hpost, (status_200 _ Hs), Hj.
    destruct (py_get_not_object result (PyStr "") "response" Hv) as [e He].
    assert (e = AttributeError) as -> by (destruct result; cbn in He; congruence).
    rewrite He. print_diagnostics. reflexivity.
Qed.

Lemma generate_readme_huggingface (self : READMEGenerator) (client : Session)
                                  (info : ProjectInfo) (ty : string) :
  selected self "huggingface" (hf_client self) = Some client ->
  generate_readme py_str exception_text console_print self info ty
  = _generate_huggingface_readme py_str exception_text console_print self client info ty.
Proof.
  intros Hsel. destruct (selected_Some _ _ _ _ Hsel) as [Hprov Hclient].
  unfold generate_readme, selected. rewrite Hprov, Hclient. reflexivity.
Qed.

Lemma generate_readme_ollama (self : READMEGenerator) (client : Session)
                             (info : ProjectInfo) (ty : string) :
  selected self "ollama" (ollama_client self) = Some client ->
  generate_readme py_str exception_text console_print self info ty
  = _generate_ollama_readme py_str exception_text console_print self client info ty.
Proof.
  intros Hsel. destruct (selected_Some _ _ _ _ Hsel) as [Hprov Hclient].
  unfold generate_readme, selected. rewrite Hprov, Hclient. reflexivity.
Qed.

(** C8 (amended).  When a provider is configured and one of its steps fails
    by raising (listing the models, sending the request, decoding the body
    or reading the text out of it), by the required model not being listed,
    or by a status other than 200, and the diagnostics of that failure are
    printed, [generate_readme] returns the template document of the same
    descriptor and type; no error reaches the caller.  A reply with status
    200 whose body decodes but does not carry the text is no failure for the
    Hugging Face and the Ollama path: a missing [generated_text] or
    [response] field yields the empty string, and the Hugging Face path
    returns [str(result)] for a decoded body that is neither an object nor a
    non-empty list. *)
Theorem provider_failure_falls_back (self : READMEGenerator) (info : ProjectInfo)
                                    (ty : string) :
  (provider_step_fails py_str exception_text console_print self info ty ->
   generate_readme py_str exception_text console_print self info ty
   = Ok (PyStr (_generate_template_readme info ty)))
  /\ (forall client response bindings,
        selected self "huggingface" (hf_client self) = Some client ->
        hf_answered self client (_create_ai_prompt py_str info ty) response ->
        json response = Ok (PyDict bindings)
        \/ (exists rest, json response = Ok (PyList (PyDict bindings :: rest))) ->
        dict_lookup "generated_text" bindings = None ->
        generate_readme py_str exception_text console_print self info ty = Ok (PyStr ""))
  /\ (forall client response body,
        selected self "huggingface" (hf_client self) = Some client ->
        hf_answered self client (_create_ai_prompt py_str info ty) response ->
        json response = Ok body ->
        (forall bindings, body <> PyDict bindings) ->
        (forall item rest, body <> PyList (item :: rest)) ->
        generate_readme py_str exception_text console_print self info ty
        = Ok (PyStr (py_str body)))
  /\ (forall client response bindings,
        selected self "ollama" (ollama_client self) = Some client ->
        ollama_answered self client (_create_ai_prompt py_str info ty) response ->
        json response = Ok (PyDict bindings) ->
        dict_lookup "response" bindings = None ->
        generate_readme py_str exception_text console_print self info ty = Ok (PyStr "")).
Proof.
  split; [| split; [| split]].
  - intros [c Hsel Hfail | c Hsel Hfail | c Hsel Hfail | c Hsel Hfail | c Hsel Hfail];
      destruct (selected_Some _ _ _ _ Hsel) as [Hprov Hclient];
      unfold generate_readme, selected; rewrite Hprov, ?Hclient;
      cbn [String.eqb Ascii.eqb Bool.eqb].
    + apply openai_failure_template, Hfail.
    + apply anthropic_failure_template, Hfail.
    + apply google_failure_template, Hfail.
    + apply huggingface_failure_template, Hfail.
    + apply ollama_failure_template, Hfail.
  - intros client response bindings Hsel Hanswered Hbody Hmissing.
    rewrite (generate_readme_huggingface _ _ _ _ Hsel).
    rewrite (huggingface_answered _ _ _ _ _ Hanswered). run_result.
    destruct Hbody as [-> | [rest ->]]; cbn [py_get]; rewrite Hmissing; reflexivity.
  - intros client response body Hsel Hanswered Hbody Hobject Hlist.
    rewrite (generate_readme_huggingface _ _ _ _ Hsel).
    rewrite (huggingface_answered _ _ _ _ _ Hanswered). run_result. rewrite Hbody.
    destruct body as [| | | | | [|item rest] |]; try reflexivity.
    + destruct (Hlist item rest eq_refl).
    + destruct (Hobject bindings eq_refl).
  - intros client response bindings Hsel (Hchecked & Hpost & Hstatus) Hbody Hmissing.
    rewrite (generate_readme_ollama _ _ _ _ Hsel).
    rewrite (ollama_passes_check _ _ _ _ Hchecked). run_result.
    rewrite Hpost, (status_200 _ Hstatus), Hbody. cbn [py_get]. rewrite Hmissing.
    reflexivity.
Qed.

End ProviderFallback.

Lemma provider_failure_falls_back_witness :
  generate_readme no_rendering refused_text plain_console
                  (huggingface_generator unreachable_endpoint) my_cool_app "simple"
  = Ok (PyStr (_generate_template_readme my_cool_app "simple")).
Proof.
  apply provider_failure_falls_back.
  apply huggingface_step_fails with (client := unreachable_endpoint); [reflexivity |].
  apply hf_check_raises with (e := ServiceError); [reflexivity |].
  repeat constructor.
Defined.

(** C8, as stated, fails on the Hugging Face path when the endpoint answers
    with status 200 and a body that decodes to an object without the
    generated text: the body is malformed, yet [generate_readme] returns the
    empty string and not the template document. *)
Lemma provider_malformed_body_counterexample :
  json overloaded_reply = Ok (PyDict [("error", PyStr "Model is overloaded")])
  /\ carries_text "generated_text" (PyDict [("error", PyStr "Model is overloaded")]) = false
  /\ generate_readme no_rendering refused_text plain_console
                     (huggingface_generator overloaded_endpoint)
                     my_cool_app "simple" = Ok (PyStr "")
  /\ Ok (PyStr "") <> Ok (PyStr (_generate_template_readme my_cool_app "simple")).
Proof.
  split; [reflexivity |]. split; [reflexivity |]. split; [vm_compute; reflexivity |].
  vm_compute. discriminate.
Qed.

(** A provider whose steps all succeed has its text returned, and a
    generator whose selected provider has no client uses the template. *)
Example generate_readme_provider_text :
  generate_readme no_rendering refused_text plain_console
    (openai_generator (answering_client "gpt-3.5-turbo" "# my-cool-app by the model"))
    my_cool_app "simple"
  = Ok (PyStr "# my-cool-app by the model").
Proof. vm_compute. reflexivity. Qed.

Example generate_readme_without_client :
  generate_readme no_rendering refused_text plain_console
    {| selected_provider := "ollama"; openai_client := None; anthropic_client := None;
       google_client := None; hf_client := Some unreachable_endpoint;
       ollama_client := None; hf_api_key := ""; hf_model := ""; ollama_endpoint := "" |}
    my_cool_app "installation"
  = Ok (PyStr (_installation_template my_cool_app)).
Proof. reflexivity. Qed.

(** When the console refuses the diagnostic of a failure, the error of the
    console leaves [generate_readme]: here the text of the provider's
    exception holds a closing tag and the fallback handler prints it. *)
Example generate_readme_console_refuses :
  generate_readme no_rendering tagged_text tag_checking_console
                  (huggingface_generator unreachable_endpoint) my_cool_app "simple"
  = Raise MarkupError.
Proof. vm_compute. reflexivity. Qed.

(** ** Template generation *)

(** Descends to the last piece of a concatenation and evaluates there. *)
Ltac in_last_piece :=
  repeat match goal with
         | |- PyStr.contains _ (String.append _ _) = true => apply contains_append_r
         end;
  vm_compute; reflexivity.

Lemma simple_template_license (info : ProjectInfo) :
  PyStr.contains MIT_SENTENCE (_simple_template info) = true.
Proof. unfold _simple_template. in_last_piece. Qed.

Lemma installation_template_license (info : ProjectInfo) :
  PyStr.contains MIT_SENTENCE (_installation_template info) = true.
Proof. unfold _installation_template. in_last_piece. Qed.

Lemma advanced_template_license (info : ProjectInfo) :
  PyStr.contains MIT_SENTENCE (_advanced_template info) = true.
Proof. unfold _advanced_template. cbv zeta. in_last_piece. Qed.

(** C10.  Every template document, for every descriptor and document type,
    contains the sentence [This project is licensed under the MIT License],
    also for a descriptor whose [has_license] flag is false and whose file
    list holds no license file. *)
Theorem template_states_MIT_license :
  (forall info ty,
     PyStr.contains MIT_SENTENCE (_generate_template_readme info ty) = true)
  /\ has_license my_cool_app = false
  /\ _has_license (files my_cool_app) = false
  /\ PyStr.contains MIT_SENTENCE (_generate_template_readme my_cool_app "simple") = true
  /\ PyStr.contains MIT_SENTENCE (_generate_template_readme my_cool_app "installation") = true
  /\ PyStr.contains MIT_SENTENCE (_generate_template_readme my_cool_app "advanced") = true.
Proof.
  assert (forall info ty,
            PyStr.contains MIT_SENTENCE (_generate_template_readme info ty) = true) as Hall.
  { intros info ty. unfold _generate_template_readme.
    destruct (String.eqb ty "simple"); [apply simple_template_license |].
    destruct (String.eqb ty "installation");
      [apply installation_template_license | apply advanced_template_license]. }
  split; [exact Hall |]. split; [reflexivity |]. split; [reflexivity |].
  repeat split; apply Hall.
Qed.

Lemma template_nonempty (info : ProjectInfo) (ty : string) :
  _generate_template_readme info ty <> "".
Proof.
  unfold _generate_template_readme.
  destruct (String.eqb ty "simple"); [| destruct (String.eqb ty "installation")].
  - unfold _simple_template. discriminate.
  - unfold _installation_template. discriminate.
  - unfold _advanced_template. cbv zeta. discriminate.
Qed.

(** C9.  Template generation is a total function of the descriptor and the
    document type into the strings: equal arguments give the same string,
    the string is never empty, and a type other than [simple] and
    [installation] gives the advanced document. *)
Theorem template_generation_deterministic :
  (forall info info' ty ty',
     info = info' -> ty = ty' ->
     _generate_template_readme info ty = _generate_template_readme info' ty')
  /\ (forall info ty, _generate_template_readme info ty <> "")
  /\ (forall info, _generate_template_readme info "simple" = _simple_template info)
  /\ (forall info, _generate_template_readme info "installation" = _installation_template info)
  /\ (forall info ty,
        ty <> "simple" -> ty <> "installation" ->
        _generate_template_readme info ty = _advanced_template info).
Proof.
  split; [intros info info' ty ty' -> ->; reflexivity |].
  split; [exact template_nonempty |].
  split; [reflexivity |]. split; [reflexivity |].
  intros info ty Hs Hi. unfold _generate_template_readme.
  destruct (String.eqb_spec ty "simple"); [contradiction |].
  destruct (String.eqb_spec ty "installation"); [contradiction |].
  reflexivity.
Qed.

Lemma template_generation_deterministic_witness :
  _generate_template_readme my_cool_app "simple" = _generate_template_readme my_cool_app "simple"
  /\ _generate_template_readme my_cool_app "fancy" = _advanced_template my_cool_app.
Proof.
  destruct template_generation_deterministic as (Hdet & _ & _ & _ & Hdefault).
  split.
  - apply Hdet; reflexivity.
  - apply Hdefault; discriminate.
Defined.

(** The scenario of the specification: the simple document of
    [my-cool-app]. *)
Example simple_document_of_my_cool_app :
  PyStr.startswith (_generate_template_readme my_cool_app "simple")
                   ("# my-cool-app" +:+ nl) = true
  /\ PyStr.contains "pip install -r requirements.txt"
                    (_generate_template_readme my_cool_app "simple") = true
  /\ PyStr.contains "python main.py" (_generate_template_readme my_cool_app "simple") = true.
Proof. repeat split; vm_compute; reflexivity. Qed.

(** * Further properties *)

(** ** The project scan *)

Lemma files_of_walk_app (a b : list (string * list string)) :
  files_of_walk (a ++ b) = files_of_walk a ++ files_of_walk b.
Proof. unfold files_of_walk. apply flat_map_app. Qed.

Lemma in_kept_names (es : list entry) (f : string) :
  In f (List.filter keep_file (map entry_name (List.filter is_file es)))
  <-> In (File f) es /\ keep_file f = true.
Proof.
  rewrite filter_In, in_map_iff. split.
  - intros [[e [Hname He]] Hkeep]. apply filter_In in He. destruct He as [He Hfile].
    destruct e as [n | n l]; [| discriminate]. simpl in Hname. subst n. auto.
  - intros [Hin Hkeep]. split; [| exact Hkeep].
    exists (File f). split; [reflexivity |]. apply filter_In. auto.
Qed.

Lemma walk_dir_lists (e : entry) :
  forall top p,
    In p (files_of_walk (walk_dir top e)) <->
    exists es ds f,
      listing_of e = Some es /\ lists_file es ds f /\ p = rel_path top (ds ++ [f]).
Proof.
  induction e as [n | n | n es IH] using entry_induction; intros top p.
  - simpl. split; [intros [] | intros (es & ds & f & H & _); discriminate].
  - simpl. split; [intros [] | intros (es & ds & f & H & _); discriminate].
  - cbn [walk_dir listing_of].
    change (files_of_walk ((top, map entry_name (List.filter is_file es)) :: ?l))
      with (map (rel_join top)
                (List.filter keep_file (map entry_name (List.filter is_file es)))
            ++ files_of_walk l).
    rewrite in_app_iff, in_map_iff. split.
    + intros [[f [Hp Hf]] | Hbelow].
      * apply in_kept_names in Hf. destruct Hf as [Hin Hkeep].
        exists es, [], f. split; [reflexivity |]. split; [| symmetry; exact Hp].
        apply lists_here; assumption.
      * unfold files_of_walk in Hbelow. apply in_flat_map in Hbelow.
        destruct Hbelow as [[top' names] [Hvisit Hp]].
        apply in_flat_map in Hvisit. destruct Hvisit as [c [Hc Hvisit]].
        destruct c as [m | d l]; [destruct Hvisit |].
        destruct (keep_dir d) eqn:Hkeep; [| destruct Hvisit].
        pose proof (proj1 (List.Forall_forall _ _) IH _ Hc (rel_join top d) p) as IHc.
        destruct (proj1 IHc) as (sub & ds & f & Hsub & Hlists & Heq).
        { unfold files_of_walk. apply in_flat_map. exists (top', names). auto. }
        simpl in Hsub. subst l.
        exists es, (d :: ds), f. split; [reflexivity |]. split; [| exact Heq].
        eapply lists_below; eassumption.
    + intros (es' & ds & f & Hes & Hlists & Heq). injection Hes as <-.
      inversion Hlists as [es0 f0 Hin Hkeep | es0 d sub ds' f0 Hin Hkeep Hsub]; subst.
      * left. exists f. split; [reflexivity |]. apply in_kept_names. auto.
      * right.
        pose proof (proj1 (List.Forall_forall _ _) IH _ Hin (rel_join top d)
                      (rel_path top ((d :: ds') ++ [f]))) as IHc.
        assert (In (rel_path top ((d :: ds') ++ [f]))
                   (files_of_walk (walk_dir (rel_join top d) (Dir d (Some sub)))))
          as Hdeep.
        { apply IHc. exists sub, ds', f. split; [reflexivity |]. split; [exact Hsub |].
          reflexivity. }
        unfold files_of_walk in *. apply in_flat_map in Hdeep.
        destruct Hdeep as [visit [Hvisit Hp]].
        apply in_flat_map. exists visit. split; [| exact Hp].
        apply in_flat_map. exists (Dir d (Some sub)). split; [exact Hin |].
        rewrite Hkeep. exact Hvisit.
Qed.

(** X1.  The scan of a listable project directory returns exactly the
    relative paths that lead, through directories that are listable and not
    pruned (not hidden, not node_modules, __pycache__, venv or .git), to a
    file that is not hidden and does not end in .pyc, .log or .tmp. *)
Theorem scan_lists_exactly (w : World) (es : list entry) (p : string) :
  root w = Directory (Some es) ->
  (exists files, _get_project_files w = Ok files /\ In p files) <->
  (exists ds f, lists_file es ds f /\ p = rel_path "" (ds ++ [f])).
Proof.
  intros Hroot.
  assert (_get_project_files w
          = Ok (files_of_walk (walk_dir "" (Dir (path_name (project_path w)) (Some es)))))
    as Hscan.
  { unfold _get_project_files, os_walk. rewrite Hroot. reflexivity. }
  pose proof (walk_dir_lists (Dir (path_name (project_path w)) (Some es)) "" p) as Hwalk.
  split.
  - intros (files & Hfiles & Hin).
    assert (files = files_of_walk
                      (walk_dir "" (Dir (path_name (project_path w)) (Some es))))
      as -> by congruence.
    destruct (proj1 Hwalk Hin) as (es' & ds & f & Hes & Hlists & Heq).
    injection Hes as <-. eauto.
  - intros (ds & f & Hlists & Heq). eexists. split; [exact Hscan |].
    apply Hwalk. exists es, ds, f. auto.
Qed.

Lemma scan_lists_exactly_witness :
  exists files,
    _get_project_files (directory_of "/home/dev/shop" shop_tree) = Ok files
    /\ In "src/web/index.js" files.
Proof.
  apply (scan_lists_exactly (directory_of "/home/dev/shop" shop_tree) shop_tree
           "src/web/index.js" eq_refl).
  exists ["src"; "web"], "index.js". split; [| reflexivity].
  eapply lists_below; [simpl; eauto 10 | reflexivity |].
  eapply lists_below; [simpl; eauto 10 | reflexivity |].
  apply lists_here; [simpl; eauto 10 | reflexivity].
Defined.

(** X2.  The analyzer and the upload walk prune the same directories: a
    directory name passes the test of the scan exactly when the upload walk
    does not exclude it. *)
Theorem scan_and_upload_prune_alike (d : string) :
  keep_dir d = negb (name_excluded d).
Proof.
  unfold keep_dir, name_excluded, EXCLUDE_PATTERNS. cbn [existsb].
  destruct (PyStr.startswith d ".") eqn:Hdot.
  - rewrite !orb_true_r. reflexivity.
  - assert (forall s, PyStr.startswith s "." = true -> String.eqb d s = false) as Hne.
    { intros s Hs. destruct (String.eqb_spec d s); [subst; congruence | reflexivity]. }
    rewrite (Hne ".git"), (Hne ".DS_Store"), (Hne ".mypy_cache") by reflexivity.
    destruct (String.eqb d "node_modules"), (String.eqb d "__pycache__"),
             (String.eqb d "venv"); reflexivity.
Qed.

(** ** Language detection *)

Lemma carries_same_files (files files' : list string) (e : string) :
  (forall f, In f files <-> In f files') ->
  carries files e = carries files' e.
Proof.
  intros Hsame. apply eq_true_iff_eq. unfold carries. rewrite !existsb_exists.
  split; intros [f [Hf He]]; exists f; split; try exact He; apply Hsame, Hf.
Qed.

(** X3.  Language detection depends only on which files are listed, not on
    their order nor on how often a file is listed. *)
Theorem detect_language_same_files (files files' : list string) :
  (forall f, In f files <-> In f files') ->
  _detect_language files = _detect_language files'.
Proof.
  intros Hsame. rewrite !detect_language_cases.
  rewrite !(carries_same_files files files' _ Hsame). reflexivity.
Qed.

Lemma detect_language_same_files_witness :
  _detect_language ["b.go"; "a.rs"; "b.go"] = _detect_language ["a.rs"; "b.go"].
Proof.
  apply detect_language_same_files. intros f. simpl. tauto.
Defined.

(** ** File classifier *)

(** X4.  A buffer put together from two parts is binary exactly when one of
    the parts is. *)
Theorem is_binary_app (a b : list byte) :
  is_binary (a ++ b) = (is_binary a || is_binary b)%bool.
Proof.
  apply eq_true_iff_eq. rewrite orb_true_iff, !is_binary_true_iff. split.
  - intros [x [Hx Hf]]. apply in_app_or in Hx.
    destruct Hx as [Hx | Hx]; [left | right]; exists x; auto.
  - intros [[x [Hx Hf]] | [x [Hx Hf]]]; exists x; split; auto using in_or_app.
Qed.

(** ** Substrings, continued *)

Lemma append_assoc (a b c : string) : (a +:+ b) +:+ c = a +:+ b +:+ c.
Proof.
  induction a as [|x a IH]; [reflexivity |].
  change ((String x a +:+ b) +:+ c) with (String x ((a +:+ b) +:+ c)).
  rewrite IH. reflexivity.
Qed.

Lemma append_empty_r (a : string) : a +:+ "" = a.
Proof.
  induction a as [|x a IH]; [reflexivity |].
  change (String x a +:+ "") with (String x (a +:+ "")). rewrite IH. reflexivity.
Qed.

Lemma startswith_split (s p : string) :
  PyStr.startswith s p = true -> exists rest, s = p +:+ rest.
Proof.
  revert s. induction p as [|a p IH]; intros s Hs.
  - exists s. reflexivity.
  - destruct s as [|b s]; [discriminate |]. cbn [PyStr.startswith] in Hs.
    destruct (Ascii.eqb_spec a b); [| discriminate]. subst b.
    destruct (IH s Hs) as [rest ->]. exists rest. reflexivity.
Qed.

Lemma contains_split (p s : string) :
  PyStr.contains p s = true -> exists pre post, s = pre +:+ p +:+ post.
Proof.
  induction s as [|c s IH].
  - cbn [PyStr.contains]. destruct (PyStr.startswith "" p) eqn:Hs; [| discriminate].
    intros _. destruct (startswith_split _ _ Hs) as [rest Hrest].
    exists "", rest. exact Hrest.
  - rewrite contains_cons. destruct (PyStr.startswith (String c s) p) eqn:Hs.
    + intros _. destruct (startswith_split _ _ Hs) as [rest Hrest].
      exists "", rest. exact Hrest.
    + intros Hc. destruct (IH Hc) as (pre & post & ->).
      exists (String c pre), post. reflexivity.
Qed.

Lemma contains_iff (p s : string) :
  PyStr.contains p s = true <-> exists pre post, s = pre +:+ p +:+ post.
Proof.
  split; [apply contains_split |]. intros (pre & post & ->). apply contains_infix.
Qed.

Lemma contains_trans (p s t : string) :
  PyStr.contains p s = true -> PyStr.contains s t = true -> PyStr.contains p t = true.
Proof.
  intros Hps Hst. apply contains_split in Hps. apply contains_split in Hst.
  destruct Hps as (a & b & ->). destruct Hst as (pre & post & ->).
  apply contains_iff. exists (pre +:+ a), (b +:+ post).
  rewrite !append_assoc. reflexivity.
Qed.

Lemma contains_append_weak (p s t : string) :
  PyStr.contains p s = true -> PyStr.contains p (s +:+ t) = true.
Proof.
  intros Hps. apply contains_split in Hps. destruct Hps as (a & b & ->).
  apply contains_iff. exists a, (b +:+ t). rewrite !append_assoc. reflexivity.
Qed.

Lemma contains_self (s : string) : PyStr.contains s s = true.
Proof. apply contains_iff. exists "", "". symmetry. apply append_empty_r. Qed.

(** X5.  Exclusion is inherited: a path that contains an excluded path is
    excluded, so everything below an excluded directory is excluded. *)
Theorem should_exclude_inherited (file_path pre post : string) :
  should_exclude file_path = true ->
  should_exclude (pre +:+ file_path +:+ post) = true.
Proof.
  intros Hex. apply should_exclude_iff in Hex. destruct Hex as (pattern & Hin & Hc).
  apply should_exclude_iff. exists pattern. split; [exact Hin |].
  apply (contains_trans _ _ _ Hc). apply contains_infix.
Qed.

Lemma should_exclude_inherited_witness :
  should_exclude ("web/" +:+ "node_modules" +:+ "/react/index.js") = true.
Proof. apply should_exclude_inherited. reflexivity. Defined.

Lemma should_exclude_covers_segments_witness :
  should_exclude "src/venv/lib/site.py" = true.
Proof. apply should_exclude_covers_segments. reflexivity. Defined.

(** ** Dependency extraction, continued *)

Lemma read_requirements_collects (w : World) (req_files deps : list string) :
  snd (read_requirements w req_files deps)
  = deps ++ flat_map (fun f => flat_map requirement_of_line (delivered (read_lines w f)))
                     req_files.
Proof.
  revert deps. induction req_files as [|f rest IH]; intros deps.
  - simpl. rewrite app_nil_r. reflexivity.
  - cbn [read_requirements flat_map].
    unfold mbind, Exec_bind, try_pass, extend. cbn [snd fst].
    rewrite IH, app_assoc. reflexivity.
Qed.

Lemma in_take {A : Type} (n : nat) (l : list A) (x : A) : In x (take n l) -> In x l.
Proof.
  revert l. induction n as [|n IH]; intros [|y l]; simpl; try tauto.
  intros [-> | H]; [left; reflexivity | right; apply IH, H].
Qed.

Lemma in_list_of_set (xs : list string) (x : string) : In x (list_of_set xs) <-> In x xs.
Proof.
  unfold list_of_set. rewrite <- !list_elem_of_In, elem_of_elements, elem_of_list_to_set.
  reflexivity.
Qed.

Lemma extract_python_collects (w : World) (files : list string) (d : string) :
  In d (_extract_dependencies w files "Python") ->
  exists f raw,
    In f files /\ is_req_file f = true
    /\ In raw (delivered (read_lines w f)) /\ In d (requirement_of_line raw).
Proof.
  unfold _extract_dependencies. cbn [String.eqb Ascii.eqb Bool.eqb].
  intros Hd. apply in_take in Hd. apply (proj1 (in_list_of_set _ _)) in Hd.
  rewrite read_requirements_collects in Hd. cbn [app] in Hd.
  apply in_flat_map in Hd. destruct Hd as (f & Hf & Hd).
  apply filter_In in Hf. destruct Hf as [Hf Hreq].
  apply in_flat_map in Hd. destruct Hd as (raw & Hraw & Hd).
  exists f, raw. auto.
Qed.

(** X7.  Every dependency reported for a Python project was read from a
    line of a listed file whose path contains requirements or ends in .txt:
    it is the part of the stripped line before its first version
    specifier. *)
Theorem python_dependencies_origin (w : World) (files : list string) (d : string) :
  In d (_extract_dependencies w files "Python") ->
  exists f raw,
    In f files /\ is_req_file f = true
    /\ In raw (delivered (read_lines w f))
    /\ PyStr.startswith (PyStr.strip raw) "#" = false
    /\ d = PyStr.split_head "<=" (PyStr.split_head ">=" (PyStr.split_head "==" (PyStr.strip raw))).
Proof.
  intros Hd. destruct (extract_python_collects _ _ _ Hd) as (f & raw & Hf & Hreq & Hraw & Hline).
  exists f, raw. repeat (split; [assumption |]).
  unfold requirement_of_line in Hline.
  destruct (PyStr.truthy (PyStr.strip raw)); [| destruct Hline].
  destruct (PyStr.startswith (PyStr.strip raw) "#"); [destruct Hline |].
  destruct Hline as [<- | []]. split; reflexivity.
Qed.

Lemma python_dependencies_origin_witness :
  exists f raw,
    In f ["requirements.txt"; "main.py"] /\ is_req_file f = true
    /\ In raw (delivered (read_lines crowded_requirements f))
    /\ PyStr.startswith (PyStr.strip raw) "#" = false
    /\ "numpy" = PyStr.split_head "<=" (PyStr.split_head ">="
                   (PyStr.split_head "==" (PyStr.strip raw))).
Proof.
  apply (python_dependencies_origin crowded_requirements ["requirements.txt"; "main.py"]).
  vm_compute. tauto.
Defined.

Lemma startswith_append_weak (s p t : string) :
  PyStr.startswith s p = true -> PyStr.startswith (s +:+ t) p = true.
Proof.
  intros Hs. destruct (startswith_split _ _ Hs) as [rest ->].
  rewrite append_assoc. apply startswith_append.
Qed.

Lemma split_head_prefix (sep s : string) :
  exists rest, s = PyStr.split_head sep s +:+ rest.
Proof.
  induction s as [|c s IH]; cbn [PyStr.split_head].
  - destruct (PyStr.startswith "" sep); exists ""; reflexivity.
  - destruct (PyStr.startswith (String c s) sep).
    + exists (String c s). reflexivity.
    + destruct IH as [rest Hrest]. exists rest.
      change (String c (PyStr.split_head sep s) +:+ rest)
        with (String c (PyStr.split_head sep s +:+ rest)).
      rewrite <- Hrest. reflexivity.
Qed.

Lemma split_head_free (sep s : string) :
  sep <> "" -> PyStr.contains sep (PyStr.split_head sep s) = false.
Proof.
  intros Hsep.
  assert (PyStr.contains sep "" = false) as Hempty.
  { destruct sep; [congruence | reflexivity]. }
  induction s as [|c s IH]; cbn [PyStr.split_head].
  - destruct (PyStr.startswith "" sep); exact Hempty.
  - destruct (PyStr.startswith (String c s) sep) eqn:Hs; [exact Hempty |].
    rewrite contains_cons, IH.
    destruct (PyStr.startswith (String c (PyStr.split_head sep s)) sep) eqn:Hs';
      [| reflexivity].
    destruct (split_head_prefix sep s) as [rest Hrest].
    apply (startswith_append_weak _ _ rest) in Hs'.
    change (String c (PyStr.split_head sep s) +:+ rest)
      with (String c (PyStr.split_head sep s +:+ rest)) in Hs'.
    rewrite <- Hrest in Hs'. congruence.
Qed.

Lemma prefix_free (p a b : string) :
  PyStr.contains p (a +:+ b) = false -> PyStr.contains p a = false.
Proof.
  intros Hfree. destruct (PyStr.contains p a) eqn:Ha; [| reflexivity].
  rewrite (contains_append_weak _ _ b Ha) in Hfree. discriminate.
Qed.

Lemma split_head_keeps_free (p sep s : string) :
  PyStr.contains p s = false -> PyStr.contains p (PyStr.split_head sep s) = false.
Proof.
  intros Hfree. destruct (split_head_prefix sep s) as [rest Hrest].
  rewrite Hrest in Hfree. exact (prefix_free _ _ _ Hfree).
Qed.

(** X8.  No dependency reported for a Python project contains one of the
    version specifiers [==], [>=] and [<=]. *)
Theorem python_dependencies_unpinned (w : World) (files : list string) (d : string) :
  In d (_extract_dependencies w files "Python") ->
  PyStr.contains "==" d = false
  /\ PyStr.contains ">=" d = false
  /\ PyStr.contains "<=" d = false.
Proof.
  intros Hd. destruct (extract_python_collects _ _ _ Hd) as (f & raw & _ & _ & _ & Hline).
  unfold requirement_of_line in Hline.
  destruct (PyStr.truthy (PyStr.strip raw) && negb (PyStr.startswith (PyStr.strip raw) "#"))%bool;
    [| destruct Hline].
  destruct Hline as [<- | []].
  split; [| split].
  - apply split_head_keeps_free, split_head_keeps_free, split_head_free. discriminate.
  - apply split_head_keeps_free, split_head_free. discriminate.
  - apply split_head_free. discriminate.
Qed.

Lemma python_dependencies_unpinned_witness :
  PyStr.contains "==" "requests" = false
  /\ PyStr.contains ">=" "requests" = false
  /\ PyStr.contains "<=" "requests" = false.
Proof.
  apply (python_dependencies_unpinned crowded_requirements ["requirements.txt"; "main.py"]).
  vm_compute. tauto.
Defined.

Lemma list_of_set_nil : list_of_set [] = [].
Proof. unfold list_of_set. simpl. apply elements_empty. Qed.

Lemma filter_none {A : Type} (p : A -> bool) (l : list A) :
  existsb p l = false -> List.filter p l = [].
Proof.
  induction l as [|x l IH]; simpl; [reflexivity |].
  destruct (p x); simpl; [discriminate | exact IH].
Qed.

(** X9.  When the descriptor's [has_requirements] flag comes out false, no
    dependency is extracted: for Python no listed path is a requirements
    file, for JS/TS package.json is not listed at the root, and no other
    language has a manifest that is read. *)
Theorem no_requirements_no_dependencies (w : World) (files : list string)
                                        (language : string) :
  _has_requirements files language = false ->
  _extract_dependencies w files language = [].
Proof.
  unfold _has_requirements, _extract_dependencies.
  destruct (String.eqb language "Python").
  - intros Hnone. rewrite (filter_none _ _ Hnone). cbn. rewrite list_of_set_nil. reflexivity.
  - destruct (String.eqb language "JavaScript/TypeScript").
    + intros ->. cbn. rewrite list_of_set_nil. reflexivity.
    + intros _. cbn. rewrite list_of_set_nil. reflexivity.
Qed.

Lemma no_requirements_no_dependencies_witness :
  _extract_dependencies skewed_manifest ["web/package.json"; "index.js"]
                        "JavaScript/TypeScript" = [].
Proof. apply no_requirements_no_dependencies. reflexivity. Defined.

Lemma py_keys_not_object (v : pyvalue) :
  (forall bindings, v <> PyDict bindings) -> exists e, py_keys v = Raise e.
Proof.
  intros Hnot. destruct v; try (eexists; reflexivity). destruct (Hnot bindings eq_refl).
Qed.

(** X10.  The two sections of package.json are read in turn inside one
    [try]: when [devDependencies] is present but is not an object, the keys
    of [dependencies] collected before stay; when [dependencies] is present
    but is not an object, nothing is collected, whatever [devDependencies]
    holds. *)
Theorem manifest_sections_in_turn (w : World) (files : list string)
                                  (bindings : list (string * pyvalue)) :
  existsb (String.eqb "package.json") files = true ->
  json_load w "package.json" = Ok (PyDict bindings) ->
  (forall deps v,
     dict_lookup "dependencies" bindings = Some (PyDict deps) ->
     dict_lookup "devDependencies" bindings = Some v ->
     (forall b, v <> PyDict b) ->
     _extract_dependencies w files "JavaScript/TypeScript"
     = take 10 (list_of_set (dict_keys deps)))
  /\ (forall v,
        dict_lookup "dependencies" bindings = Some v ->
        (forall b, v <> PyDict b) ->
        _extract_dependencies w files "JavaScript/TypeScript" = []).
Proof.
  intros Hlisted Hload.
  unfold _extract_dependencies.
  change (String.eqb "JavaScript/TypeScript" "Python") with false.
  change (String.eqb "JavaScript/TypeScript" "JavaScript/TypeScript") with true.
  cbv iota. rewrite Hlisted.
  unfold try_pass, read_package_json, extend_from_section, lift, extend,
         mbind, Exec_bind, mret, Exec_ret.
  rewrite Hload. cbn [py_in py_getitem snd fst]. split.
  - intros deps v Hdeps Hdev Hv. rewrite Hdeps, Hdev. cbn [py_keys app snd fst].
    destruct (py_keys_not_object v Hv) as [e ->]. reflexivity.
  - intros v Hdeps Hv. rewrite Hdeps.
    destruct (py_keys_not_object v Hv) as [e ->]. cbn [snd].
    rewrite list_of_set_nil. reflexivity.
Qed.

Lemma manifest_sections_in_turn_witness :
  _extract_dependencies skewed_manifest ["package.json"; "index.js"] "JavaScript/TypeScript"
  = take 10 (list_of_set ["react"; "vue"]).
Proof.
  refine (proj1 (manifest_sections_in_turn skewed_manifest ["package.json"; "index.js"]
                   _ eq_refl eq_refl)
                [("react", PyStr "^18.0.0"); ("vue", PyStr "^3.0.0")]
                (PyList [PyStr "eslint"]) eq_refl eq_refl _).
  intros b. discriminate.
Defined.

(** ** Description and descriptor *)

Lemma lower_char_idempotent (c : ascii) :
  PyStr.lower_char (PyStr.lower_char c) = PyStr.lower_char c.
Proof. destruct c as [[] [] [] [] [] [] [] []]; reflexivity. Qed.

Lemma lower_upper_char (c : ascii) :
  PyStr.lower_char (PyStr.upper_char c) = PyStr.lower_char c.
Proof. destruct c as [[] [] [] [] [] [] [] []]; reflexivity. Qed.

Lemma lower_title_from (b : bool) (s : string) :
  PyStr.lower (PyStr.title_from b s) = PyStr.lower s.
Proof.
  revert b. induction s as [|c s IH]; intros b; [reflexivity |].
  cbn [PyStr.title_from PyStr.lower]. rewrite IH.
  destruct b; [rewrite lower_char_idempotent | rewrite lower_upper_char]; reflexivity.
Qed.

Lemma all_chars_append (p : ascii -> bool) (a b : string) :
  all_chars p (a +:+ b) = (all_chars p a && all_chars p b)%bool.
Proof.
  induction a as [|c a IH]; [reflexivity |].
  change (String c a +:+ b) with (String c (a +:+ b)).
  cbn [all_chars]. rewrite IH, andb_assoc. reflexivity.
Qed.

Lemma replace_char_keeps (a : ascii) (t s : string) (p : ascii -> bool) :
  all_chars p t = true ->
  all_chars p s = true ->
  all_chars p (PyStr.replace_char a t s) = true.
Proof.
  intros Ht. induction s as [|c s IH]; [reflexivity |].
  cbn [all_chars PyStr.replace_char]. rewrite andb_true_iff. intros [Hc Hs].
  destruct (Ascii.eqb c a).
  - rewrite all_chars_append, Ht, (IH Hs). reflexivity.
  - cbn [all_chars]. rewrite Hc, (IH Hs). reflexivity.
Qed.

Lemma lower_char_ascii (c : ascii) : is_ascii (PyStr.lower_char c) = is_ascii c.
Proof. destruct c as [[] [] [] [] [] [] [] []]; reflexivity. Qed.

Lemma upper_char_ascii (c : ascii) : is_ascii (PyStr.upper_char c) = is_ascii c.
Proof. destruct c as [[] [] [] [] [] [] [] []]; reflexivity. Qed.

Lemma title_from_ascii (b : bool) (s : string) :
  all_chars is_ascii s = true -> all_chars is_ascii (PyStr.title_from b s) = true.
Proof.
  revert b. induction s as [|c s IH]; intros b; [reflexivity |].
  cbn [all_chars PyStr.title_from]. rewrite andb_true_iff. intros [Hc Hs].
  rewrite (IH _ Hs).
  destruct b; [rewrite lower_char_ascii | rewrite upper_char_ascii];
    rewrite Hc; reflexivity.
Qed.

(** X11.  For a directory name of ASCII characters the generated
    description is the text [A], the lower-cased name with hyphens and
    underscores turned into spaces, and the text [project]: the title-casing
    in between leaves no trace.  The two built-ins are taken as they are on
    ASCII text; on a name with other letters the title-casing can show in
    the result (the sharp s comes out as [ss]). *)
Theorem description_is_lowercase_name (str_title str_lower : string -> string)
                                      (w : World) :
  (forall s, all_chars is_ascii s = true -> str_title s = PyStr.title s) ->
  (forall s, all_chars is_ascii s = true -> str_lower s = PyStr.lower s) ->
  all_chars is_ascii (path_name (project_path w)) = true ->
  _generate_description_with str_title str_lower w
  = "A " +:+ str_lower (PyStr.replace_char "_" " "
                          (PyStr.replace_char "-" " " (path_name (project_path w))))
         +:+ " project".
Proof.
  intros Htitle Hlower Hname. unfold _generate_description_with.
  set (spaced := PyStr.replace_char "_" " "
                   (PyStr.replace_char "-" " " (path_name (project_path w)))).
  assert (all_chars is_ascii spaced = true) as Hspaced.
  { unfold spaced. repeat apply replace_char_keeps; solve [reflexivity | exact Hname]. }
  rewrite (Htitle _ Hspaced), (Hlower _ Hspaced). unfold PyStr.title.
  rewrite (Hlower _ (title_from_ascii false _ Hspaced)), lower_title_from.
  reflexivity.
Qed.

Lemma description_is_lowercase_name_witness :
  _generate_description_with PyStr.title PyStr.lower (directory_of "/home/dev/My-Cool_App" [])
  = "A my cool app project".
Proof.
  apply (description_is_lowercase_name PyStr.title PyStr.lower
           (directory_of "/home/dev/My-Cool_App" [])).
  - intros s _. reflexivity.
  - intros s _. reflexivity.
  - reflexivity.
Defined.

Lemma detect_language_listed (files : list string) :
  In (_detect_language files) LANGUAGES.
Proof.
  rewrite detect_language_cases.
  repeat match goal with
         | |- context [carries files ?e] => destruct (carries files e)
         end; simpl; tauto.
Qed.

(** X12.  When [analyze] succeeds, the project path is a directory that
    can be listed, and the descriptor names one of the nine languages, has a
    framework only for Python and JS/TS, has dependencies only when its
    [has_requirements] flag is set, and its structure is the first-match
    classification of the immediate children. *)
Theorem analyze_descriptor (w : World) (info : ProjectInfo) :
  analyze w = Ok info ->
  exists items,
    root w = Directory (Some items)
    /\ In (language info) LANGUAGES
    /\ (framework info <> None ->
        language info = "Python" \/ language info = "JavaScript/TypeScript")
    /\ (has_requirements info = false -> dependencies info = [])
    /\ structure info = exclusive_structure items.
Proof.
  intros Hok. unfold analyze, _get_project_files in Hok.
  unfold _analyze_structure, iterdir in Hok.
  destruct (root w) as [| | [items |]] eqn:Hroot; try discriminate Hok.
  injection Hok as <-. exists items. cbn.
  split; [reflexivity |].
  split; [apply detect_language_listed |].
  split; [| split].
  - intros Hfw.
    destruct (String.eqb_spec
                (_detect_language
                   (flat_map (fun '(top, filenames) =>
                                map (rel_join top) (List.filter keep_file filenames))
                             (os_walk w))) "Python") as [Hpy | Hpy]; [left; exact Hpy |].
    destruct (String.eqb_spec
                (_detect_language
                   (flat_map (fun '(top, filenames) =>
                                map (rel_join top) (List.filter keep_file filenames))
                             (os_walk w))) "JavaScript/TypeScript") as [Hjs | Hjs];
      [right; exact Hjs |].
    destruct Hfw. apply detect_framework_other; assumption.
  - intros Hreq. unfold _has_requirements in Hreq. unfold _extract_dependencies.
    destruct (String.eqb _ "Python").
    + rewrite (filter_none _ _ Hreq). cbn. rewrite list_of_set_nil. reflexivity.
    + destruct (String.eqb _ "JavaScript/TypeScript").
      * rewrite Hreq. cbn. rewrite list_of_set_nil. reflexivity.
      * cbn. rewrite list_of_set_nil. reflexivity.
  - rewrite classify_items_app, structure_app_empty_l. reflexivity.
Qed.

Lemma analyze_descriptor_witness :
  exists items,
    root (directory_of "/home/dev/shop" shop_tree) = Directory (Some items)
    /\ In (language shop_descriptor) LANGUAGES
    /\ (framework shop_descriptor <> None ->
        language shop_descriptor = "Python"
        \/ language shop_descriptor = "JavaScript/TypeScript")
    /\ (has_requirements shop_descriptor = false -> dependencies shop_descriptor = [])
    /\ structure shop_descriptor = exclusive_structure items.
Proof.
  apply (analyze_descriptor (directory_of "/home/dev/shop" shop_tree) shop_descriptor).
  vm_compute. reflexivity.
Defined.

(** ** Template documents *)

Lemma startswith_common_prefix (a x y : string) :
  PyStr.startswith (a +:+ x) (a +:+ y) = PyStr.startswith x y.
Proof.
  induction a as [|c a IH]; [reflexivity |].
  change (String c a +:+ x) with (String c (a +:+ x)).
  change (String c a +:+ y) with (String c (a +:+ y)).
  cbn [PyStr.startswith]. rewrite Ascii.eqb_refl. exact IH.
Qed.

(** X13.  Every template document, of whatever type, begins with the
    heading line of the project name. *)
Theorem template_begins_with_heading (info : ProjectInfo) (ty : string) :
  PyStr.startswith (_generate_template_readme info ty) ("# " +:+ name info +:+ nl) = true.
Proof.
  unfold _generate_template_readme.
  destruct (String.eqb ty "simple"); [| destruct (String.eqb ty "installation")].
  - unfold _simple_template. rewrite !startswith_common_prefix. reflexivity.
  - unfold _installation_template. rewrite !startswith_common_prefix. reflexivity.
  - unfold _advanced_template. cbv zeta. rewrite !startswith_common_prefix. reflexivity.
Qed.

(** Descends through a concatenation to the piece looked for. *)
Ltac find_piece :=
  repeat lazymatch goal with
         | |- PyStr.contains ?p (String.append ?p _) = true => apply contains_append_l
         | |- PyStr.contains _ (String.append _ _) = true => apply contains_append_r
         end.

(** X14.  Every template document, of whatever type, contains the install
    command of the project's language. *)
Theorem template_contains_install_command (info : ProjectInfo) (ty : string) :
  PyStr.contains (_get_install_command info) (_generate_template_readme info ty) = true.
Proof.
  unfold _generate_template_readme.
  destruct (String.eqb ty "simple"); [| destruct (String.eqb ty "installation")].
  - unfold _simple_template.
    find_piece.
  - unfold _installation_template.
    find_piece.
  - unfold _advanced_template. cbv zeta.
    find_piece.
Qed.

Lemma join_contains (sep x : string) (parts : list string) :
  In x parts -> PyStr.contains x (PyStr.join sep parts) = true.
Proof.
  induction parts as [|p rest IH]; [intros [] |].
  intros Hin. destruct rest as [|q rest].
  - destruct Hin as [-> | []]. apply contains_self.
  - change (PyStr.join sep (p :: q :: rest)) with (p +:+ sep +:+ PyStr.join sep (q :: rest)).
    destruct Hin as [-> | Hin].
    + apply contains_append_l.
    + apply contains_append_r, contains_append_r, IH, Hin.
Qed.

Lemma configuration_section_lists (info : ProjectInfo) (file : string) :
  In file (config_files (structure info)) ->
  PyStr.contains ("- `" +:+ file +:+ "`") (_get_configuration_section info) = true.
Proof.
  intros Hin. unfold _get_configuration_section.
  destruct (config_files (structure info)) as [|c cs] eqn:Hcfg; [destruct Hin |].
  apply contains_append_r. apply contains_append_weak. apply join_contains.
  apply in_map_iff. exists file. split; [reflexivity | exact Hin].
Qed.

(** X15.  Every configuration file of the descriptor is listed, as a
    back-quoted bullet, in the installation document and in the advanced
    document. *)
Theorem documents_list_config_files (info : ProjectInfo) (file : string) :
  In file (config_files (structure info)) ->
  PyStr.contains ("- `" +:+ file +:+ "`") (_installation_template info) = true
  /\ PyStr.contains ("- `" +:+ file +:+ "`") (_advanced_template info) = true.
Proof.
  intros Hin. pose proof (configuration_section_lists info file Hin) as Hsection.
  split; apply (contains_trans _ _ _ Hsection).
  - unfold _installation_template. find_piece.
  - unfold _advanced_template. cbv zeta. find_piece.
Qed.

Lemma documents_list_config_files_witness :
  PyStr.contains "- `app.toml`" (_installation_template go_shop) = true
  /\ PyStr.contains "- `app.toml`" (_advanced_template go_shop) = true.
Proof.
  apply (documents_list_config_files go_shop "app.toml"). left. reflexivity.
Defined.

(** ** The ignore file *)

Lemma append_missing_keeps (p content pattern : string) :
  PyStr.contains p content = true ->
  PyStr.contains p (append_missing content pattern) = true.
Proof.
  intros Hp. unfold append_missing.
  destruct (PyStr.contains pattern content); [exact Hp |].
  apply contains_append_weak, Hp.
Qed.

Lemma append_missing_adds (content pattern : string) :
  PyStr.contains pattern (append_missing content pattern) = true.
Proof.
  unfold append_missing. destruct (PyStr.contains pattern content) eqn:Hc; [exact Hc |].
  apply contains_append_r, contains_append_r, contains_self.
Qed.

Lemma foldl_append_missing_keeps (p : string) (patterns : list string) (content : string) :
  PyStr.contains p content = true ->
  PyStr.contains p (foldl append_missing content patterns) = true.
Proof.
  revert content. induction patterns as [|q patterns IH]; intros content Hp; [exact Hp |].
  cbn [foldl]. apply IH, append_missing_keeps, Hp.
Qed.

Lemma foldl_append_missing_adds (p : string) (patterns : list string) (content : string) :
  In p patterns ->
  PyStr.contains p (foldl append_missing content patterns) = true.
Proof.
  revert content. induction patterns as [|q patterns IH]; intros content; [intros [] |].
  intros [-> | Hin]; cbn [foldl].
  - apply foldl_append_missing_keeps, append_missing_adds.
  - apply IH, Hin.
Qed.

Lemma gitignore_content_holds (patterns : list string) (text p : string) :
  p = "mcp_client.config" \/ In p patterns ->
  PyStr.contains p (gitignore_content_with patterns text) = true.
Proof.
  intros Hp. unfold gitignore_content_with. apply contains_append_weak.
  destruct Hp as [-> | Hin]; [| apply foldl_append_missing_adds, Hin].
  apply foldl_append_missing_keeps.
  destruct (PyStr.contains "mcp_client.config" (PyStr.rstrip text)) eqn:Hc; [exact Hc |].
  do 4 apply contains_append_r. apply contains_self.
Qed.

Lemma foldl_append_missing_extends (patterns : list string) (content : string) :
  PyStr.startswith (foldl append_missing content patterns) content = true.
Proof.
  revert content. induction patterns as [|q patterns IH]; intros content; cbn [foldl].
  - rewrite <- (append_empty_r content) at 1. apply startswith_append.
  - specialize (IH (append_missing content q)).
    destruct (startswith_split _ _ IH) as [rest ->]. unfold append_missing.
    destruct (PyStr.contains q content).
    + apply startswith_append.
    + rewrite !append_assoc. apply startswith_append.
Qed.

(** X16.  The ignore file written by [run] and by [create_gitignore]
    contains every protected pattern (mcp_client.config, .env, *.secret,
    .venv, node_modules), whatever the template service answered; it begins
    with the answer, stripped of trailing white space. *)
Theorem gitignore_protects_secrets (text pattern : string) :
  In pattern required_patterns ->
  PyStr.contains pattern (run_gitignore_content text) = true
  /\ PyStr.contains pattern (create_gitignore_content text) = true
  /\ PyStr.startswith (run_gitignore_content text) (PyStr.rstrip text) = true
  /\ create_gitignore_content text = run_gitignore_content text.
Proof.
  intros Hin.
  assert (pattern = "mcp_client.config" \/ In pattern always_patterns) as Hp.
  { simpl in Hin. simpl. intuition. }
  split; [apply gitignore_content_holds; exact Hp |].
  split; [apply gitignore_content_holds; exact Hp |].
  split; [| reflexivity].
  unfold run_gitignore_content, gitignore_content_with.
  apply startswith_append_weak.
  pose proof (foldl_append_missing_extends (List.tl required_patterns)
                (if PyStr.contains "mcp_client.config" (PyStr.rstrip text)
                 then PyStr.rstrip text
                 else PyStr.rstrip text +:+ nl +:+ "# NeoGit config file" +:+ nl
                      +:+ "mcp_client.config")) as Hext.
  destruct (startswith_split _ _ Hext) as [rest ->].
  destruct (PyStr.contains "mcp_client.config" (PyStr.rstrip text)).
  - apply startswith_append.
  - rewrite !append_assoc. apply startswith_append.
Qed.

Lemma gitignore_protects_secrets_witness :
  PyStr.contains ".env" (run_gitignore_content ("__pycache__/" +:+ nl +:+ "*.pyc" +:+ nl)) = true.
Proof.
  apply (gitignore_protects_secrets ("__pycache__/" +:+ nl +:+ "*.pyc" +:+ nl) ".env").
  simpl. tauto.
Defined.

(** X17.  The ignore file that [run] writes passes its own up-to-date
    check: the next [run] finds nothing to update. *)
Theorem gitignore_update_settles (text : string) :
  needs_update (Some (run_gitignore_content text)) = false.
Proof.
  unfold needs_update. apply not_true_is_false. intros Hsome.
  apply existsb_exists in Hsome. destruct Hsome as (pattern & Hin & Hmissing).
  assert (PyStr.contains pattern (run_gitignore_content text) = true) as Hheld.
  { apply gitignore_content_holds. simpl in Hin. simpl. intuition. }
  rewrite Hheld in Hmissing. discriminate.
Qed.

(** ** Repository name *)

Lemma all_chars_weaken (p q : ascii -> bool) (s : string) :
  (forall c, p c = true -> q c = true) ->
  all_chars p s = true -> all_chars q s = true.
Proof.
  intros Hpq. induction s as [|c s IH]; [reflexivity |]. cbn [all_chars].
  rewrite !andb_true_iff. intros [Hc Hs]. split; [apply Hpq, Hc | apply IH, Hs].
Qed.

Lemma replace_char_clears (a : ascii) (t s : string) (p : ascii -> bool) :
  all_chars p t = true ->
  (forall c, c <> a -> p c = true) ->
  all_chars p (PyStr.replace_char a t s) = true.
Proof.
  intros Ht Hother. induction s as [|c s IH]; [reflexivity |].
  cbn [PyStr.replace_char]. destruct (Ascii.eqb_spec c a).
  - rewrite all_chars_append, Ht, IH. reflexivity.
  - cbn [all_chars]. rewrite (Hother c n), IH. reflexivity.
Qed.

Lemma replace_char_absent (a : ascii) (t s : string) :
  all_chars (fun c => negb (Ascii.eqb c a)) s = true ->
  PyStr.replace_char a t s = s.
Proof.
  induction s as [|c s IH]; [reflexivity |].
  cbn [all_chars PyStr.replace_char]. rewrite andb_true_iff. intros [Hc Hs].
  destruct (Ascii.eqb c a); [discriminate |]. rewrite (IH Hs). reflexivity.
Qed.

Lemma filter_chars_all (keep p : ascii -> bool) (s : string) :
  all_chars p s = true -> all_chars p (filter_chars keep s) = true.
Proof.
  induction s as [|c s IH]; [reflexivity |].
  cbn [all_chars filter_chars]. rewrite andb_true_iff. intros [Hc Hs].
  destruct (keep c); [cbn [all_chars]; rewrite Hc |]; apply IH, Hs.
Qed.

Lemma filter_chars_kept (keep : ascii -> bool) (s : string) :
  all_chars keep (filter_chars keep s) = true.
Proof.
  induction s as [|c s IH]; [reflexivity |]. cbn [filter_chars].
  destruct (keep c) eqn:Hc; [cbn [all_chars]; rewrite Hc |]; exact IH.
Qed.

Lemma filter_chars_fixed (keep : ascii -> bool) (s : string) :
  all_chars keep s = true -> filter_chars keep s = s.
Proof.
  induction s as [|c s IH]; [reflexivity |].
  cbn [all_chars filter_chars]. rewrite andb_true_iff. intros [Hc Hs].
  rewrite Hc, (IH Hs). reflexivity.
Qed.

Lemma hyphen_or_underscore (c : ascii) :
  PyStr.contains (String c EmptyString) "-_" = true -> c = "-"%char \/ c = "_"%char.
Proof.
  destruct c as [[] [] [] [] [] [] [] []]; cbn; intros H; try discriminate H; auto.
Qed.

Section RepositoryNameFacts.

Variable isalnum : ascii -> bool.

(** The characters the filter of line 25 keeps. *)
Let kept (c : ascii) : bool :=
  (isalnum c || PyStr.contains (String c EmptyString) "-_")%bool.

Lemma repo_name_no_space (name : string) :
  all_chars (fun c => negb (Ascii.eqb c " ")) (repo_name_of isalnum name) = true.
Proof.
  unfold repo_name_of. apply filter_chars_all.
  apply replace_char_keeps; [reflexivity |].
  apply replace_char_clears; [reflexivity |].
  intros c Hc. destruct (Ascii.eqb_spec c " "); [contradiction | reflexivity].
Qed.

Lemma repo_name_no_underscore (name : string) :
  all_chars (fun c => negb (Ascii.eqb c "_")) (repo_name_of isalnum name) = true.
Proof.
  unfold repo_name_of. apply filter_chars_all.
  apply replace_char_clears; [reflexivity |].
  intros c Hc. destruct (Ascii.eqb_spec c "_"); [contradiction | reflexivity].
Qed.

(** X18.  The repository name derived from a project name holds neither a
    space nor an underscore, every character of it is alphanumeric or a
    hyphen, and deriving a name from it again changes nothing. *)
Theorem repo_name_clean (name : string) :
  all_chars (fun c => negb (Ascii.eqb c " ") && negb (Ascii.eqb c "_")
                      && (isalnum c || Ascii.eqb c "-"))%bool
            (repo_name_of isalnum name) = true
  /\ repo_name_of isalnum (repo_name_of isalnum name) = repo_name_of isalnum name.
Proof.
  pose proof (repo_name_no_space name) as Hspace.
  pose proof (repo_name_no_underscore name) as Hunder.
  assert (all_chars kept (repo_name_of isalnum name) = true) as Hkept
    by apply filter_chars_kept.
  split.
  - revert Hspace Hunder Hkept. generalize (repo_name_of isalnum name) as s.
    induction s as [|c s IH]; [intros _ _ _; reflexivity |]. cbn [all_chars].
    rewrite !andb_true_iff. intros [Hc1 Hs1] [Hc2 Hs2] [Hc3 Hs3].
    split; [| apply IH; assumption].
    split; [split; assumption |].
    unfold kept in Hc3. apply orb_true_iff in Hc3. apply orb_true_iff.
    destruct Hc3 as [Hc3 | Hc3]; [left; exact Hc3 |].
    destruct (hyphen_or_underscore c Hc3) as [-> | ->]; [right; reflexivity |].
    discriminate Hc2.
  - unfold repo_name_of at 1.
    rewrite (replace_char_absent " " "-" _ Hspace).
    rewrite (replace_char_absent "_" "-" _ Hunder).
    apply filter_chars_fixed, Hkept.
Qed.

End RepositoryNameFacts.

(** ** Document type *)

Lemma type_instructions_default (ty : string) :
  ty <> "simple" -> ty <> "installation" ->
  default type_instructions_advanced (type_instructions !! ty) = type_instructions_advanced.
Proof.
  intros Hs Hi. unfold type_instructions. cbn [list_to_map foldr fst snd].
  rewrite lookup_insert_ne by congruence.
  destruct (decide (ty = "advanced")) as [-> | Ha].
  - rewrite lookup_insert_eq. reflexivity.
  - rewrite !lookup_insert_ne by congruence. rewrite lookup_empty. reflexivity.
Qed.

(** X19.  A document type other than simple and installation is treated as
    advanced throughout: the prompt built for the provider carries the
    advanced instructions and the template document is the advanced one. *)
Theorem unknown_type_is_advanced (py_str : pyvalue -> string) (info : ProjectInfo)
                                 (ty : string) :
  ty <> "simple" -> ty <> "installation" ->
  _create_ai_prompt py_str info ty = _create_ai_prompt py_str info "advanced"
  /\ _generate_template_readme info ty = _generate_template_readme info "advanced".
Proof.
  intros Hs Hi. split.
  - unfold _create_ai_prompt.
    rewrite (type_instructions_default ty Hs Hi).
    rewrite (type_instructions_default "advanced") by discriminate. reflexivity.
  - unfold _generate_template_readme.
    destruct (String.eqb_spec ty "simple"); [contradiction |].
    destruct (String.eqb_spec ty "installation"); [contradiction |]. reflexivity.
Qed.

Lemma unknown_type_is_advanced_witness :
  _create_ai_prompt no_rendering my_cool_app "detailed"
  = _create_ai_prompt no_rendering my_cool_app "advanced"
  /\ _generate_template_readme my_cool_app "detailed"
     = _generate_template_readme my_cool_app "advanced".
Proof. apply unknown_type_is_advanced; discriminate. Defined.

(** ** Dependency extraction: nothing lost below the bound *)

Lemma take_all_in (n : nat) (l : list string) (x : string) :
  (length l <= n)%nat -> In x l -> In x (take n l).
Proof. intros Hlen Hin. rewrite take_ge by lia. exact Hin. Qed.

(** X20.  When both sections of a root package.json are objects, the
    reported dependencies are keys of [dependencies] or [devDependencies];
    when the two sections have at most ten distinct keys between them, every
    key is reported. *)
Theorem manifest_sections_union (w : World) (files : list string)
    (bindings deps dev : list (string * pyvalue)) (k : string) :
  existsb (String.eqb "package.json") files = true ->
  json_load w "package.json" = Ok (PyDict bindings) ->
  dict_lookup "dependencies" bindings = Some (PyDict deps) ->
  dict_lookup "devDependencies" bindings = Some (PyDict dev) ->
  (In k (_extract_dependencies w files "JavaScript/TypeScript") ->
   In k (dict_keys deps) \/ In k (dict_keys dev))
  /\ ((length (list_of_set (dict_keys deps ++ dict_keys dev)) <= 10)%nat ->
      In k (dict_keys deps) \/ In k (dict_keys dev) ->
      In k (_extract_dependencies w files "JavaScript/TypeScript")).
Proof.
  intros Hlisted Hload Hdeps Hdev.
  assert (_extract_dependencies w files "JavaScript/TypeScript"
          = take 10 (list_of_set (dict_keys deps ++ dict_keys dev))) as ->.
  { unfold _extract_dependencies.
    change (String.eqb "JavaScript/TypeScript" "Python") with false.
    change (String.eqb "JavaScript/TypeScript" "JavaScript/TypeScript") with true.
    cbv iota. rewrite Hlisted.
    unfold try_pass, read_package_json, extend_from_section, lift, extend,
           mbind, Exec_bind, mret, Exec_ret.
    rewrite Hload. cbn [py_in py_getitem snd fst]. rewrite Hdeps, Hdev.
    reflexivity. }
  split.
  - intros Hin. apply in_take in Hin. apply (proj1 (in_list_of_set _ _)) in Hin.
    apply in_app_or, Hin.
  - intros Hlen Hin. apply take_all_in; [exact Hlen |].
    apply in_list_of_set, in_or_app, Hin.
Qed.

Lemma manifest_sections_union_witness :
  In "eslint" (_extract_dependencies web_manifest ["package.json"; "index.js"]
                                     "JavaScript/TypeScript").
Proof.
  refine (proj2 (manifest_sections_union web_manifest ["package.json"; "index.js"] _
                   [("react", PyStr "^18.0.0")] [("eslint", PyStr "^8.0.0")] "eslint"
                   eq_refl eq_refl eq_refl eq_refl) _ _).
  - vm_compute. lia.
  - right. left. reflexivity.
Defined.

(** X21.  For a Python project whose requirements files declare at most ten
    distinct entries, every declared entry is reported. *)
Theorem python_dependencies_complete (w : World) (files : list string)
                                     (f raw d : string) :
  (length (list_of_set
             (flat_map (fun f => flat_map requirement_of_line (delivered (read_lines w f)))
                       (List.filter is_req_file files))) <= 10)%nat ->
  In f files -> is_req_file f = true ->
  In raw (delivered (read_lines w f)) ->
  In d (requirement_of_line raw) ->
  In d (_extract_dependencies w files "Python").
Proof.
  intros Hlen Hf Hreq Hraw Hd.
  unfold _extract_dependencies. change (String.eqb "Python" "Python") with true. cbv iota.
  rewrite read_requirements_collects. cbn [app].
  apply take_all_in; [exact Hlen |]. apply in_list_of_set.
  apply in_flat_map. exists f. split; [apply filter_In; auto |].
  apply in_flat_map. exists raw. auto.
Qed.

Lemma python_dependencies_complete_witness :
  In "flask" (_extract_dependencies api_requirements ["requirements.txt"; "app.py"] "Python").
Proof.
  apply (python_dependencies_complete api_requirements ["requirements.txt"; "app.py"]
           "requirements.txt" "flask==2.0" "flask").
  - vm_compute. lia.
  - left. reflexivity.
  - reflexivity.
  - left. reflexivity.
  - left. reflexivity.
Defined.
